(** * The streaming response transcoder of [claude_proxy.py]

    A shallow embedding of [ClaudeProxy.handle_stream_response]: the
    function reads the body of the backend's answer chunk by chunk,
    cuts every chunk into lines, interprets the [data:] lines as
    OpenAI-style delta events and writes Anthropic-style server-sent
    events to the client.

    Python values are embedded as follows.
    - [bytes] is [list byte]; [str] is the list of its code points.
    - [chunk.decode(errors="ignore")], [str.splitlines], [str.strip] and
      [str.startswith] are written out below after CPython's behaviour.
    - [json.loads] is a parameter of the development ([None] stands for
      the exception that the bare [except:] swallows); the value it
      returns is a [pyval].
    - every [await response.write(...)] appends one [frame] to the
      output; an exception leaves the function with the frames written
      so far.  The client is taken to accept every write.
    - the clock enters as the integer [int(time.time()*1000)]. *)

From Stdlib Require Import List Bool NArith ZArith Lia.
From Stdlib.Strings Require Import String Ascii Byte.
From Stdlib Require Import DecimalString DecimalZ PrimFloat.
Import ListNotations.

Set Implicit Arguments.
Set Warnings "-register-all".
Open Scope string_scope.
Open Scope N_scope.
Open Scope list_scope.

(** ** Python strings and bytes *)

Definition str := list N.
Definition bytes := list byte.

(** A string literal of the source, as the list of its code points. *)
Definition lit (s : string) : str :=
  map N_of_ascii (list_ascii_of_string s).

(** Test inputs contain JSON text; an apostrophe in the literal stands
    for the double quote of the wire format. *)
Definition dq (s : string) : bytes :=
  map (fun c => if Byte.eqb c x27 then x22 else c)
      (list_byte_of_string s).

(** The same with a line feed at the end. *)
Definition ln (s : string) : bytes := dq s ++ [x0a].

Definition str_eqb (a b : str) : bool :=
  if list_eq_dec N.eq_dec a b then true else false.

(** [raw.startswith(prefix)] *)
Fixpoint startswith (s prefix : str) : bool :=
  match prefix, s with
  | [], _ => true
  | p :: prefix', c :: s' => N.eqb c p && startswith s' prefix'
  | _ :: _, [] => false
  end.

(** [Py_UNICODE_ISSPACE]: the code points [str.strip()] removes. *)
Definition isspace (c : N) : bool :=
  ((0x09 <=? c) && (c <=? 0x0D)) || ((0x1C <=? c) && (c <=? 0x20))
  || (c =? 0x85) || (c =? 0xA0) || (c =? 0x1680)
  || ((0x2000 <=? c) && (c <=? 0x200A))
  || (c =? 0x2028) || (c =? 0x2029) || (c =? 0x202F) || (c =? 0x205F)
  || (c =? 0x3000).

Fixpoint lstrip (s : str) : str :=
  match s with
  | c :: s' => if isspace c then lstrip s' else s
  | [] => []
  end.

Definition rstrip (s : str) : str := rev (lstrip (rev s)).

(** [s.strip()] *)
Definition strip (s : str) : str := rstrip (lstrip s).

(** [Py_UNICODE_ISLINEBREAK]: the line boundaries of [str.splitlines]. *)
Definition islinebreak (c : N) : bool :=
  ((0x0A <=? c) && (c <=? 0x0D)) || ((0x1C <=? c) && (c <=? 0x1E))
  || (c =? 0x85) || (c =? 0x2028) || (c =? 0x2029).

Definition LF : N := 0x0A.
Definition CR : N := 0x0D.

(** [s.splitlines()]: [cur] holds, reversed, the characters of the line
    being read.  A carriage return directly followed by a line feed is
    one boundary; what follows the last boundary is a line only when it
    is not empty. *)
Fixpoint splitlines_from (cur : str) (s : str) : list str :=
  match s with
  | [] => match cur with [] => [] | _ => [rev cur] end
  | c :: s' =>
      if islinebreak c then
        match s' with
        | d :: s'' =>
            if (c =? CR) && (d =? LF)
            then rev cur :: splitlines_from [] s''
            else rev cur :: splitlines_from [] s'
        | [] => [rev cur]
        end
      else splitlines_from (c :: cur) s'
  end%N.

Definition splitlines (s : str) : list str := splitlines_from [] s.

(** ** [bytes.decode(errors="ignore")]

    The UTF-8 decoder, one byte at a time.  [need] counts the
    continuation bytes still expected, [acc] is the code point read so
    far, and the next byte has to lie in [lo..hi].  A byte that cannot
    continue the pending sequence makes the decoder give that sequence
    up and look at the byte again as the start of a new one; with
    [errors="ignore"] nothing is produced for the bytes given up. *)
Module Utf8.

Record state := mk { need : nat; acc : N; lo : N; hi : N }.

Definition idle : state := mk 0 0 0 0.

Definition start (b : N) : state * list N :=
  (if b <? 0x80 then (idle, [b])
   else if (0xC2 <=? b) && (b <=? 0xDF)
     then (mk 1 (N.land b 0x1F) 0x80 0xBF, [])
   else if b =? 0xE0 then (mk 2 (N.land b 0x0F) 0xA0 0xBF, [])
   else if b =? 0xED then (mk 2 (N.land b 0x0F) 0x80 0x9F, [])
   else if (0xE1 <=? b) && (b <=? 0xEF)
     then (mk 2 (N.land b 0x0F) 0x80 0xBF, [])
   else if b =? 0xF0 then (mk 3 (N.land b 0x07) 0x90 0xBF, [])
   else if (0xF1 <=? b) && (b <=? 0xF3)
     then (mk 3 (N.land b 0x07) 0x80 0xBF, [])
   else if b =? 0xF4 then (mk 3 (N.land b 0x07) 0x80 0x8F, [])
   else (idle, []))%N.

Definition step (st : state) (b : N) : state * list N :=
  match need st with
  | O => start b
  | S n =>
      if ((lo st <=? b) && (b <=? hi st))%N then
        let a := (acc st * 64 + N.land b 0x3F)%N in
        match n with
        | O => (idle, [a])
        | S _ => (mk n a 0x80 0xBF, [])
        end
      else start b
  end.

(** At the end of the input a pending sequence is given up as well. *)
Fixpoint run (st : state) (bs : list N) : list N :=
  match bs with
  | [] => []
  | b :: bs' => let (st', o) := step st b in o ++ run st' bs'
  end.

(** The states the decoder can be in: while a sequence is pending, only
    bytes from [0x80] on continue it. *)
Definition wf (st : state) : Prop := need st = O \/ 0x80 <= lo st.

End Utf8.

Definition decode_ignore (chunk : bytes) : str :=
  Utf8.run Utf8.idle (map Byte.to_N chunk).

(** ** The Frame Reader: the lines the streaming loop iterates over

    [async for chunk in resp.content.iter_any(): if not chunk: continue;
     text = chunk.decode(errors="ignore"); for raw in text.splitlines()] *)
Definition chunk_lines (chunk : bytes) : list str :=
  match chunk with
  | [] => []
  | _ => splitlines (decode_ignore chunk)
  end.

Definition frame_lines (chunks : list bytes) : list str :=
  flat_map chunk_lines chunks.

(** ** Python values

    What [json.loads] returns and what [json.dumps] is given.  A [dict]
    is kept as the list of its items, in insertion order; [dict_get]
    takes the first item with the key. *)
Inductive pyval :=
| PNone
| PBool (b : bool)
| PInt (z : Z)
| PFloat (f : PrimFloat.float)
| PStr (s : str)
| PList (l : list pyval)
| PDict (d : list (str * pyval)).

(** The exceptions that can leave the streaming function.
    [TransportError] stands for whatever the backend body iterator
    raises when the connection fails. *)
Inductive exn :=
| AttributeError | IndexError | KeyError | TypeError | TransportError.

Inductive res (A : Type) :=
| Ok (a : A)
| Err (e : exn).
Arguments Err {A} e.

Fixpoint dict_get (d : list (str * pyval)) (key : str) (default : pyval)
  : pyval :=
  match d with
  | [] => default
  | (k, v) :: d' => if str_eqb k key then v else dict_get d' key default
  end.

(** [v.get(key, default)]: only a dict has the method. *)
Definition py_get (v : pyval) (key : str) (default : pyval) : res pyval :=
  match v with
  | PDict d => Ok (dict_get d key default)
  | _ => Err AttributeError
  end.

(** [v[0]] *)
Definition py_item0 (v : pyval) : res pyval :=
  match v with
  | PList (x :: _) => Ok x
  | PList [] => Err IndexError
  | PStr (c :: _) => Ok (PStr [c])
  | PStr [] => Err IndexError
  | PDict _ => Err KeyError
  | _ => Err TypeError
  end.

(** [bool(v)], as tested by [if x := ...] *)
Definition truthy (v : pyval) : bool :=
  match v with
  | PNone => false
  | PBool b => b
  | PInt z => negb (Z.eqb z 0)
  | PFloat f => negb (PrimFloat.eqb f PrimFloat.zero)
  | PStr s => match s with [] => false | _ => true end
  | PList l => match l with [] => false | _ => true end
  | PDict d => match d with [] => false | _ => true end
  end.

(** [str(n)] for an [int] *)
Definition str_of_int (z : Z) : str :=
  lit (NilZero.string_of_int (Z.to_int z)).

(** ** Server-sent events written to the client

    [response.write(f"event: {name}\ndata: {data}\n\n".encode())]:
    the data is either [json.dumps] of a value or text of the source. *)
Inductive body :=
| Dumps (v : pyval)
| Verbatim (s : str).

Record frame := Frame { event : str; data : body }.

Definition ev (name : string) (fields : list (string * pyval)) : frame :=
  Frame (lit name)
        (Dumps (PDict ((lit "type", PStr (lit name))
                       :: map (fun kv => (lit (fst kv), snd kv)) fields))).

Definition obj (fields : list (string * pyval)) : pyval :=
  PDict (map (fun kv => (lit (fst kv), snd kv)) fields).

Definition error_event (text : str) : frame :=
  ev "error" [("error", obj [("message", PStr text)])].

Definition msg_start (message_id : str) (model : pyval) : frame :=
  ev "message_start"
     [("message",
       obj [("id", PStr message_id);
            ("type", PStr (lit "message"));
            ("role", PStr (lit "assistant"));
            ("content", PList []);
            ("model", model);
            ("stop_reason", PNone);
            ("stop_sequence", PNone);
            ("usage", obj [("input_tokens", PInt 0);
                           ("output_tokens", PInt 0)])])].

Definition content_start : frame :=
  ev "content_block_start"
     [("index", PInt 0);
      ("content_block", obj [("type", PStr (lit "text"));
                             ("text", PStr [])])].

Definition ping : frame := Frame (lit "ping") (Verbatim (lit "ping")).

Definition content_delta (content : pyval) : frame :=
  ev "content_block_delta"
     [("index", PInt 0);
      ("delta", obj [("type", PStr (lit "text_delta")); ("text", content)])].

Definition content_stop : frame :=
  ev "content_block_stop" [("index", PInt 0)].

Definition message_delta (final_stop : str) : frame :=
  ev "message_delta"
     [("delta", obj [("stop_reason", PStr final_stop);
                     ("stop_sequence", PNone)]);
      ("usage", obj [("output_tokens", PInt 0)])].

Definition message_stop : frame :=
  Frame (lit "message_stop") (Verbatim (lit "{}")).

(** [message_id = f"msg_{int(time.time()*1000)}"]; [now_ms] is the
    integer [int(time.time()*1000)] read at the start of the exchange. *)
Definition message_id (now_ms : Z) : str :=
  lit "msg_" ++ str_of_int now_ms.

(** [{"length":"max_tokens","tool_calls":"tool_use",
      "function_call":"tool_use","stop":"end_turn"}.get(finish,"end_turn")]
    on a string key. *)
Definition stop_reason_of (finish : str) : str :=
  if str_eqb finish (lit "length") then lit "max_tokens"
  else if str_eqb finish (lit "tool_calls") then lit "tool_use"
  else if str_eqb finish (lit "function_call") then lit "tool_use"
  else if str_eqb finish (lit "stop") then lit "end_turn"
  else lit "end_turn".

(** The same lookup on any value: a list or a dict is not hashable, and
    a value that is not a string equals none of the keys. *)
Definition map_finish (finish : pyval) : res str :=
  match finish with
  | PStr s => Ok (stop_reason_of s)
  | PList _ | PDict _ => Err TypeError
  | _ => Ok (lit "end_turn")
  end.

(** What one round of a loop body asks of its loop. *)
Inductive ctl :=
| Continue
| Break (final_stop : str)
| Raise (e : exn).

(** One item of [resp.content.iter_any()]: a chunk, or the exception of
    a failed backend connection. *)
Inductive recv :=
| Recv (chunk : bytes)
| Broken.

Inductive outcome :=
| Returned
| Raised (e : exn).

(** ** [ClaudeProxy.handle_stream_response] *)
Section Transcoder.

(** [json.loads]; [None] when it raises. *)
Variable json_loads : str -> option pyval.

(** [ch = data.get("choices", [{}])[0]] *)
Definition first_choice (data : pyval) : res pyval :=
  match py_get data (lit "choices") (PList [PDict []]) with
  | Ok choices => py_item0 choices
  | Err e => Err e
  end.

(** [if delta := ch.get("delta", {}): if content := delta.get("content"):
     write the content_block_delta event] *)
Definition write_delta (ch : pyval) : res (list frame) :=
  match py_get ch (lit "delta") (PDict []) with
  | Err e => Err e
  | Ok delta =>
      if truthy delta then
        match py_get delta (lit "content") PNone with
        | Err e => Err e
        | Ok content =>
            if truthy content then Ok [content_delta content] else Ok []
        end
      else Ok []
  end.

(** [if finish := ch.get("finish_reason"): final_stop = {...}.get(...);
     done = True; break] *)
Definition check_finish (ch : pyval) : ctl :=
  match py_get ch (lit "finish_reason") PNone with
  | Err e => Raise e
  | Ok finish =>
      if truthy finish then
        match map_finish finish with
        | Ok final_stop => Break final_stop
        | Err e => Raise e
        end
      else Continue
  end.

(** The body of [for raw in text.splitlines()], lines 232-254: the
    frames it writes and how it leaves. *)
Definition on_raw (final_stop : str) (raw : str) : list frame * ctl :=
  if negb (startswith raw (lit "data:")) then ([], Continue)
  else
    let payload := strip (skipn 5 raw) in
    if str_eqb payload (lit "[DONE]") then ([], Break final_stop)
    else
      match json_loads payload with
      | None => ([], Continue)
      | Some data =>
          match first_choice data with
          | Err e => ([], Raise e)
          | Ok ch =>
              match write_delta ch with
              | Err e => ([], Raise e)
              | Ok written => (written, check_finish ch)
              end
          end
      end.

(** [for raw in text.splitlines(): ...] *)
Fixpoint for_raw (final_stop : str) (raws : list str) : list frame * ctl :=
  match raws with
  | [] => ([], Continue)
  | raw :: raws' =>
      match on_raw final_stop raw with
      | (written, Continue) =>
          let (written', c) := for_raw final_stop raws' in
          (written ++ written', c)
      | (written, c) => (written, c)
      end
  end.

(** [async for chunk in resp.content.iter_any(): ...], lines 227-257;
    the result is [final_stop] when the loop is left. *)
Fixpoint for_chunk (final_stop : str) (stream : list recv)
  : list frame * res str :=
  match stream with
  | [] => ([], Ok final_stop)
  | Broken :: _ => ([], Err TransportError)
  | Recv [] :: stream' => for_chunk final_stop stream'
  | Recv chunk :: stream' =>
      match for_raw final_stop (splitlines (decode_ignore chunk)) with
      | (written, Continue) =>
          let (written', r) := for_chunk final_stop stream' in
          (written ++ written', r)
      | (written, Break final_stop') => (written, Ok final_stop')
      | (written, Raise e) => (written, Err e)
      end
  end.

(** The three writes before the loop, lines 199-221. *)
Definition opening (now_ms : Z) (model : pyval) : list frame :=
  [msg_start (message_id now_ms) model; content_start; ping].

(** The three writes after the loop, lines 260-262. *)
Definition closing (final_stop : str) : list frame :=
  [content_stop; message_delta final_stop; message_stop].

(** The whole function.  [status] and [text] are [resp.status] and
    [await resp.text()] of the backend's answer, [model] is
    [request_data.get("model")], [stream] what the body iterator
    delivers.  The result is everything written to the client and
    whether the function returned or raised. *)
Definition handle_stream_response
  (status : Z) (text : str) (model : pyval) (now_ms : Z)
  (stream : list recv) : list frame * outcome :=
  if negb (Z.eqb status 200) then ([error_event text], Returned)
  else
    match for_chunk (lit "end_turn") stream with
    | (written, Ok final_stop) =>
        (opening now_ms model ++ written ++ closing final_stop, Returned)
    | (written, Err e) => (opening now_ms model ++ written, Raised e)
    end.

End Transcoder.

(** ** A JSON reader for the examples

    The general results hold for every [json_loads].  The examples need
    one that can be run: the reader below follows [json.loads] on
    objects, arrays, strings without escapes, integers and the literals
    [true], [false] and [null].  Escapes, fractions, exponents, [NaN]
    and [Infinity] do not occur in the examples and are rejected. *)
Module Json.

Definition is_ws (c : N) : bool :=
  (c =? 0x20) || (c =? 0x09) || (c =? 0x0A) || (c =? 0x0D).

Fixpoint skip_ws (s : str) : str :=
  match s with
  | c :: s' => if is_ws c then skip_ws s' else s
  | [] => []
  end.

Definition is_digit (c : N) : bool := (0x30 <=? c) && (c <=? 0x39).

(** The characters of a string up to its closing quote. *)
Fixpoint string_body (s : str) (acc : str) : option (str * str) :=
  match s with
  | [] => None
  | c :: s' =>
      if c =? 0x22 then Some (rev acc, s')
      else if (c =? 0x5C) || (c <? 0x20) then None
      else string_body s' (c :: acc)
  end.

Fixpoint digits (s : str) (acc : Z) : Z * str :=
  match s with
  | c :: s' =>
      if is_digit c then digits s' (10 * acc + Z.of_N (c - 0x30))%Z
      else (acc, s)
  | [] => (acc, [])
  end.

(** An optional minus sign, then [0] or digits not starting with [0];
    no fraction and no exponent may follow. *)
Definition integer (s : str) : option (pyval * str) :=
  let (neg, s1) := match s with
                   | c :: s' => if c =? 0x2D then (true, s') else (false, s)
                   | [] => (false, s)
                   end in
  match s1 with
  | c :: s2 =>
      if is_digit c then
        let (z, rest) := if c =? 0x30 then (0%Z, s2) else digits s1 0%Z in
        match rest with
        | d :: _ =>
            if (d =? 0x2E) || (d =? 0x65) || (d =? 0x45) then None
            else Some (PInt (if neg then - z else z)%Z, rest)
        | [] => Some (PInt (if neg then - z else z)%Z, rest)
        end
      else None
  | [] => None
  end.

(** A key read again replaces the value and keeps its place. *)
Fixpoint put (k : str) (v : pyval) (d : list (str * pyval))
  : list (str * pyval) :=
  match d with
  | [] => [(k, v)]
  | (k', v') :: d' =>
      if str_eqb k' k then (k', v) :: d' else (k', v') :: put k v d'
  end.

Fixpoint value (fuel : nat) (s : str) : option (pyval * str) :=
  match fuel with
  | O => None
  | S fuel' =>
      match skip_ws s with
      | [] => None
      | c :: s1 =>
          if c =? 0x7B then
            match skip_ws s1 with
            | 0x7D :: s2 => Some (PDict [], s2)
            | _ => members fuel' s1 []
            end
          else if c =? 0x5B then
            match skip_ws s1 with
            | 0x5D :: s2 => Some (PList [], s2)
            | _ => elements fuel' s1 []
            end
          else if c =? 0x22 then
            match string_body s1 [] with
            | Some (t, s2) => Some (PStr t, s2)
            | None => None
            end
          else if startswith (c :: s1) (lit "true")
          then Some (PBool true, skipn 3 s1)
          else if startswith (c :: s1) (lit "false")
          then Some (PBool false, skipn 4 s1)
          else if startswith (c :: s1) (lit "null")
          then Some (PNone, skipn 3 s1)
          else integer (c :: s1)
      end
  end
with elements (fuel : nat) (s : str) (acc : list pyval)
  : option (pyval * str) :=
  match fuel with
  | O => None
  | S fuel' =>
      match value fuel' s with
      | Some (v, s1) =>
          match skip_ws s1 with
          | 0x2C :: s2 => elements fuel' s2 (v :: acc)
          | 0x5D :: s2 => Some (PList (rev (v :: acc)), s2)
          | _ => None
          end
      | None => None
      end
  end
with members (fuel : nat) (s : str) (acc : list (str * pyval))
  : option (pyval * str) :=
  match fuel with
  | O => None
  | S fuel' =>
      match skip_ws s with
      | 0x22 :: s1 =>
          match string_body s1 [] with
          | Some (k, s2) =>
              match skip_ws s2 with
              | 0x3A :: s3 =>
                  match value fuel' s3 with
                  | Some (v, s4) =>
                      match skip_ws s4 with
                      | 0x2C :: s5 => members fuel' s5 (put k v acc)
                      | 0x7D :: s5 => Some (PDict (put k v acc), s5)
                      | _ => None
                      end
                  | None => None
                  end
              | _ => None
              end
          | None => None
          end
      | _ => None
      end
  end.

(** The whole text has to be one value. *)
Definition loads (s : str) : option pyval :=
  match value (2 * List.length s + 2) s with
  | Some (v, rest) =>
      match skip_ws rest with
      | [] => Some v
      | _ => None
      end
  | None => None
  end.

End Json.

(** ** Vocabulary of the specification *)

(** The chunks are cut at line ends: every chunk but the last is empty
    or ends with a line feed. *)
Definition ends_lf (chunk : bytes) : bool :=
  match rev chunk with
  | [] => true
  | b :: _ => Byte.eqb b x0a
  end.

Definition line_aligned (chunks : list bytes) : bool :=
  forallb ends_lf (removelast chunks).

(** The event named [name], and where it stands in an output. *)
Definition named (name : string) (f : frame) : bool :=
  str_eqb (event f) (lit name).

Definition count_named (name : string) (out : list frame) : nat :=
  List.length (filter (named name) out).

Definition at_index (out : list frame) (i : nat) (name : string) : Prop :=
  exists f, nth_error out i = Some f /\ named name f = true.

(** The identifier carried by a [message_start] event. *)
Definition message_id_of (f : frame) : option pyval :=
  match data f with
  | Dumps (PDict top) =>
      match dict_get top (lit "message") PNone with
      | PDict m => Some (dict_get m (lit "id") PNone)
      | _ => None
      end
  | _ => None
  end.

(** The identifier an exchange shows to its client: the one in the
    first event written. *)
Definition exchange_id (out : list frame) : option pyval :=
  match out with
  | f :: _ => message_id_of f
  | [] => None
  end.

(** The payload shape of the backend protocol,
    [{ choices: [ { delta?: { content?: string }, finish_reason?: string } ] }];
    an optional field may be left out or be [null]. *)
Definition optional_string (v : pyval) : bool :=
  match v with
  | PNone | PStr _ => true
  | _ => false
  end.

Definition choice_shape (ch : pyval) : bool :=
  match ch with
  | PDict c =>
      match dict_get c (lit "delta") PNone with
      | PNone => true
      | PDict d => optional_string (dict_get d (lit "content") PNone)
      | _ => false
      end
      && optional_string (dict_get c (lit "finish_reason") PNone)
  | _ => false
  end.

Definition event_payload (v : pyval) : bool :=
  match v with
  | PDict top =>
      match dict_get top (lit "choices") (PList [PDict []]) with
      | PList (ch :: _) => choice_shape ch
      | _ => false
      end
  | _ => false
  end.

(** The first choice of a structured payload. *)
Definition choice0 (v : pyval) : option (list (str * pyval)) :=
  match v with
  | PDict top =>
      match dict_get top (lit "choices") PNone with
      | PList (PDict c :: _) => Some c
      | _ => None
      end
  | _ => None
  end.

Section Payloads.

Variable json_loads : str -> option pyval.

(** The text after the [data:] prefix of a line. *)
Definition payload_of (raw : str) : str := strip (skipn 5 raw).

(** The structured payload of a line: none for a line without the
    prefix, for the [[DONE]] sentinel and for text that is not JSON. *)
Definition event_of (raw : str) : option pyval :=
  if startswith raw (lit "data:") then
    if str_eqb (payload_of raw) (lit "[DONE]") then None
    else json_loads (payload_of raw)
  else None.

(** Every structured payload of the line has the protocol's shape. *)
Definition line_ok (raw : str) : bool :=
  match event_of raw with
  | Some v => event_payload v
  | None => true
  end.

(** The text fragment the first choice carries in its delta. *)
Definition fragment_of (raw : str) : option str :=
  match event_of raw with
  | Some v =>
      match choice0 v with
      | Some c =>
          match dict_get c (lit "delta") PNone with
          | PDict d =>
              match dict_get d (lit "content") PNone with
              | PStr t => Some t
              | _ => None
              end
          | _ => None
          end
      | None => None
      end
  | None => None
  end.

(** The completion reason the first choice carries. *)
Definition finish_of (raw : str) : option pyval :=
  match event_of raw with
  | Some v =>
      match choice0 v with
      | Some c =>
          match dict_get c (lit "finish_reason") PNone with
          | PNone => None
          | fin => Some fin
          end
      | None => None
      end
  | None => None
  end.

(** The reason a line finishes the message with: the completion reason
    of its first choice when that is a string and not empty ([null]
    and the empty string are no reason for [if finish := ...]). *)
Definition finish_reason_of (raw : str) : option str :=
  match finish_of raw with
  | Some (PStr (c :: s)) => Some (c :: s)
  | _ => None
  end.

(** The termination sentinel. *)
Definition is_done (raw : str) : bool :=
  startswith raw (lit "data:") && str_eqb (payload_of raw) (lit "[DONE]").

(** A finishing line: the sentinel, or a payload with a finish
    reason. *)
Definition finishing (raw : str) : bool :=
  is_done raw
  || match finish_reason_of raw with Some _ => true | None => false end.

(** The lines up to the first finishing line, that line included. *)
Fixpoint until_finish (raws : list str) : list str :=
  match raws with
  | [] => []
  | raw :: raws' =>
      if finishing raw then [raw] else raw :: until_finish raws'
  end.

(** The finish reason of the first finishing line; none when that line
    is the sentinel and when no line finishes. *)
Fixpoint first_reason (raws : list str) : option str :=
  match raws with
  | [] => None
  | raw :: raws' =>
      if is_done raw then None
      else
        match finish_reason_of raw with
        | Some s => Some s
        | None => first_reason raws'
        end
  end.

(** The text a line has for the client: the fragment of its payload,
    unless that is empty. *)
Definition shown_fragment (raw : str) : list str :=
  match fragment_of raw with
  | Some (c :: t) => [c :: t]
  | _ => []
  end.

(** The texts of a sequence of lines, in arrival order. *)
Definition shown_fragments (raws : list str) : list str :=
  flat_map shown_fragment raws.

End Payloads.

(** ** The rest of the proxy: more of Python *)

(** A literal of the source with characters outside ASCII, read as
    UTF-8. *)
Definition ulit (s : string) : str := decode_ignore (list_byte_of_string s).

(** [v == "..."] against a string of the source. *)
Definition py_eq_str (v : pyval) (s : str) : bool :=
  match v with
  | PStr t => str_eqb t s
  | _ => false
  end.

(** The item of a dict with the key, if there is one. *)
Fixpoint dict_find (d : list (str * pyval)) (key : str) : option pyval :=
  match d with
  | [] => None
  | (k, v) :: d' => if str_eqb k key then Some v else dict_find d' key
  end.

(** [v[key]] with a string key. *)
Definition py_item (v : pyval) (key : str) : res pyval :=
  match v with
  | PDict d =>
      match dict_find d key with
      | Some x => Ok x
      | None => Err KeyError
      end
  | _ => Err TypeError
  end.

(** [v.get(key, default)] where the key is a value: a list or a dict
    cannot be hashed, and only a string can equal a key of a JSON
    object. *)
Definition py_get_key (v : pyval) (key : pyval) (default : pyval)
  : res pyval :=
  match v with
  | PDict d =>
      match key with
      | PStr k => Ok (dict_get d k default)
      | PList _ | PDict _ => Err TypeError
      | _ => Ok default
      end
  | _ => Err AttributeError
  end.

(** The keys of a dict in insertion order; an item shadowed by an
    earlier one with the same key is not part of the dict. *)
Fixpoint dict_keys (d : list (str * pyval)) : list str :=
  match d with
  | [] => []
  | (k, _) :: d' =>
      k :: filter (fun k' => negb (str_eqb k' k)) (dict_keys d')
  end.

(** [v.keys()] *)
Definition py_keys (v : pyval) : res (list str) :=
  match v with
  | PDict d => Ok (dict_keys d)
  | _ => Err AttributeError
  end.

(** [v.items()] *)
Definition py_items (v : pyval) : res (list (str * pyval)) :=
  match v with
  | PDict d => Ok (map (fun k => (k, dict_get d k PNone)) (dict_keys d))
  | _ => Err AttributeError
  end.

(** [for x in v]: the values a loop over [v] sees. *)
Definition py_iter (v : pyval) : res (list pyval) :=
  match v with
  | PList l => Ok l
  | PStr s => Ok (map (fun c => PStr [c]) s)
  | PDict d => Ok (map PStr (dict_keys d))
  | _ => Err TypeError
  end.

(** ["\n".join(parts)]: every part has to be a string. *)
Fixpoint join_lf (parts : list pyval) : res str :=
  match parts with
  | [] => Ok []
  | PStr t :: rest =>
      match rest with
      | [] => Ok t
      | _ => match join_lf rest with
             | Ok r => Ok (t ++ LF :: r)
             | Err e => Err e
             end
      end
  | _ :: _ => Err TypeError
  end.

(** ** [ClaudeProxy.claude_to_openai_messages] *)

(** [for part in content: if part.get("type") == "text":
     text_parts.append(part.get("text", ""))] *)
Fixpoint text_parts (content : list pyval) : res (list pyval) :=
  match content with
  | [] => Ok []
  | part :: content' =>
      match py_get part (lit "type") PNone with
      | Err e => Err e
      | Ok ty =>
          if py_eq_str ty (lit "text") then
            match py_get part (lit "text") (PStr []) with
            | Err e => Err e
            | Ok t =>
                match text_parts content' with
                | Ok ts => Ok (t :: ts)
                | Err e => Err e
                end
            end
          else text_parts content'
      end
  end.

(** The body of [for msg in claude_messages], lines 48-66: what it
    appends to [openai_messages]. *)
Definition convert_message (msg : pyval) : res (list pyval) :=
  match py_get msg (lit "role") PNone with
  | Err e => Err e
  | Ok role =>
      if py_eq_str role (lit "user") then
        match py_get msg (lit "content") (PStr []) with
        | Err e => Err e
        | Ok (PList parts) =>
            match text_parts parts with
            | Err e => Err e
            | Ok ts =>
                match join_lf ts with
                | Err e => Err e
                | Ok joined =>
                    Ok [obj [("role", PStr (lit "user"));
                             ("content", PStr joined)]]
                end
            end
        | Ok content =>
            Ok [obj [("role", PStr (lit "user")); ("content", content)]]
        end
      else if py_eq_str role (lit "assistant") then
        match py_get msg (lit "content") (PStr []) with
        | Err e => Err e
        | Ok content =>
            Ok [obj [("role", PStr (lit "assistant")); ("content", content)]]
        end
      else Ok []
  end.

Fixpoint convert_messages (msgs : list pyval) : res (list pyval) :=
  match msgs with
  | [] => Ok []
  | msg :: msgs' =>
      match convert_message msg with
      | Err e => Err e
      | Ok out =>
          match convert_messages msgs' with
          | Ok out' => Ok (out ++ out')
          | Err e => Err e
          end
      end
  end.

Definition claude_to_openai_messages (claude_messages : pyval)
  : res (list pyval) :=
  match py_iter claude_messages with
  | Err e => Err e
  | Ok msgs => convert_messages msgs
  end.

(** ** Exceptions of the request handlers

    Besides the exceptions of the builtins: the [ValueError] of
    [get_provider_config], and [ClientError] for what aiohttp raises (a
    body that is not JSON, a connection that cannot be made). *)
Inductive error :=
| Builtin (e : exn)
| ValueError (provider_name : pyval)
| ClientError.

Inductive result (A : Type) :=
| Done (a : A)
| Fail (e : error).
Arguments Fail {A} e.

Definition lift {A : Type} (r : res A) : result A :=
  match r with
  | Ok a => Done a
  | Err e => Fail (Builtin e)
  end.

Definition bind {A B : Type} (c : result A) (k : A -> result B) : result B :=
  match c with
  | Done a => k a
  | Fail e => Fail e
  end.

Notation "'do' x <- c ; k" := (bind c (fun x => k))
  (at level 10, x name, c at level 100, k at level 200,
   format "'[v' 'do'  x  <-  c ; '/' k ']'").

(** [a or b] where [b] is evaluated only when [a] is false. *)
Definition py_or (a : pyval) (b : result pyval) : result pyval :=
  if truthy a then Done a else b.

(** What the handler of a request hands back to aiohttp. *)
Inductive reply :=
| JsonReply (status : Z) (data : pyval)
| StreamReply.

(** What a handler did: the events it wrote on the stream response it
    had prepared, and the response it returned. *)
Record served := Served { frames : list frame; returned : reply }.

(** The answer of the backend to the one [session.post]: its status,
    [await resp.text()], [await resp.json()] and the chunks of its
    body. *)
Record upstream := Upstream {
  up_status : Z;
  up_text : str;
  up_json : result pyval;
  up_body : list recv
}.

(** What is sent to the backend. *)
Record call := Call { url : str; request_data : pyval; headers : pyval }.

(** [s in v] for a string [s] of the source. *)
Fixpoint contains (s sub : str) : bool :=
  startswith s sub
  || match s with
     | [] => false
     | _ :: s' => contains s' sub
     end.

Definition py_in (s : str) (v : pyval) : res bool :=
  match v with
  | PDict d => Ok (match dict_find d s with Some _ => true | None => false end)
  | PList l => Ok (existsb (fun x => py_eq_str x s) l)
  | PStr t => Ok (contains t s)
  | _ => Err TypeError
  end.

Section Proxy.

(** [json.loads], [str()] as the f-strings apply it, and [str(e)] of an
    exception. *)
Variable json_loads : str -> option pyval.
Variable format : pyval -> str.
Variable str_exc : error -> str.

(** [self.config] *)
Variable config : pyval.

(** [self.session.post(url, json=request_data, headers=headers)] *)
Variable post : call -> result upstream.

(** *** [get_provider_config], lines 70-79 *)
Definition get_provider_config (provider_name : pyval) : result pyval :=
  do name <- (if truthy provider_name then Done provider_name
              else lift (py_get config (lit "default_provider")
                           (PStr (lit "siliconflow"))));
  do providers <- lift (py_item config (lit "providers"));
  do provider_config <- lift (py_get_key providers name PNone);
  if truthy provider_config then Done provider_config
  else Fail (ValueError name).

(** *** [openai_to_claude_response], lines 267-291 *)
Definition nonstream_stop_reason (finish_reason : pyval) : str :=
  if py_eq_str finish_reason (lit "stop") then lit "end_turn"
  else lit "max_tokens".

Definition openai_to_claude_response (openai_response : pyval)
  : res pyval :=
  match first_choice openai_response with
  | Err e => Err e
  | Ok choice =>
  match py_get choice (lit "message") (PDict []) with
  | Err e => Err e
  | Ok message =>
  match py_get openai_response (lit "id") (PStr (lit "unknown")) with
  | Err e => Err e
  | Ok id =>
  match py_get message (lit "content") (PStr []) with
  | Err e => Err e
  | Ok text =>
  match py_get openai_response (lit "model") (PStr (lit "claude-3-haiku")) with
  | Err e => Err e
  | Ok model =>
  match py_get choice (lit "finish_reason") PNone with
  | Err e => Err e
  | Ok finish_reason =>
  match py_get openai_response (lit "usage") (PDict []) with
  | Err e => Err e
  | Ok usage =>
  match py_get usage (lit "prompt_tokens") (PInt 0) with
  | Err e => Err e
  | Ok prompt_tokens =>
  match py_get usage (lit "completion_tokens") (PInt 0) with
  | Err e => Err e
  | Ok completion_tokens =>
      Ok (obj [("id", PStr (lit "msg_" ++ format id));
               ("type", PStr (lit "message"));
               ("role", PStr (lit "assistant"));
               ("content", PList [obj [("type", PStr (lit "text"));
                                       ("text", text)]]);
               ("model", model);
               ("stop_reason", PStr (nonstream_stop_reason finish_reason));
               ("stop_sequence", PNone);
               ("usage", obj [("input_tokens", prompt_tokens);
                              ("output_tokens", completion_tokens)])])
  end end end end end end end end end.

(** *** [openai_to_claude_stream_chunk], lines 293-328 *)
Definition openai_to_claude_stream_chunk (openai_chunk : pyval)
  : res pyval :=
  match first_choice openai_chunk with
  | Err e => Err e
  | Ok choice =>
  match py_get choice (lit "delta") (PDict []) with
  | Err e => Err e
  | Ok delta =>
  match py_in (lit "content") delta with
  | Err e => Err e
  | Ok true =>
      match py_item delta (lit "content") with
      | Err e => Err e
      | Ok content =>
          Ok (obj [("type", PStr (lit "content_block_delta"));
                   ("index", PInt 0);
                   ("delta", obj [("type", PStr (lit "text_delta"));
                                  ("text", content)])])
      end
  | Ok false =>
      match py_get choice (lit "finish_reason") PNone with
      | Err e => Err e
      | Ok finish_reason =>
          if truthy finish_reason then
            Ok (obj [("type", PStr (lit "message_delta"));
                     ("delta",
                      obj [("stop_reason",
                            PStr (nonstream_stop_reason finish_reason));
                           ("stop_sequence", PNone)])])
          else
            match py_get openai_chunk (lit "id") (PStr (lit "unknown")) with
            | Err e => Err e
            | Ok id =>
            match py_get openai_chunk (lit "model")
                    (PStr (lit "claude-3-haiku")) with
            | Err e => Err e
            | Ok model =>
                Ok (obj [("type", PStr (lit "message_start"));
                         ("message",
                          obj [("id", PStr (lit "msg_" ++ format id));
                               ("type", PStr (lit "message"));
                               ("role", PStr (lit "assistant"));
                               ("content", PList []);
                               ("model", model);
                               ("stop_reason", PNone);
                               ("stop_sequence", PNone);
                               ("usage", obj [("input_tokens", PInt 0);
                                              ("output_tokens", PInt 0)])])])
            end end
      end
  end end end.

(** *** [handle_normal_response], lines 154-172 *)
Definition api_error (status : Z) (error_text : str) : reply :=
  JsonReply status
    (obj [("error",
           obj [("type", PStr (lit "api_error"));
                ("message",
                 PStr (ulit "上游API错误: " ++ error_text))])]).

Definition handle_normal_response (c : call) : result reply :=
  do resp <- post c;
  if negb (Z.eqb (up_status resp) 200)
  then Done (api_error (up_status resp) (up_text resp))
  else
    do openai_response <- up_json resp;
    do claude_response <- lift (openai_to_claude_response openai_response);
    Done (JsonReply 200 claude_response).

(** *** [handle_stream_response] with its [session.post], lines 174-265

    The events written, and the exception if one left the function. *)
Definition stream_exchange (c : call) (now_ms : Z)
  : list frame * result unit :=
  match post c with
  | Fail e => ([], Fail e)
  | Done resp =>
      if negb (Z.eqb (up_status resp) 200)
      then ([error_event (up_text resp)], Done tt)
      else
        match py_get (request_data c) (lit "model") PNone with
        | Err e => ([], Fail (Builtin e))
        | Ok model =>
            match handle_stream_response json_loads (up_status resp)
                    (up_text resp) model now_ms (up_body resp) with
            | (written, Returned) => (written, Done tt)
            | (written, Raised e) => (written, Fail (Builtin e))
            end
        end
  end.

(** *** [handle_messages], lines 81-152 *)

(** The float [0.7] of line 127: the binary64 value nearest to 7/10. *)
Definition default_temperature : PrimFloat.float :=
  0x1.6666666666666p-1%float.

(** Lines 90-138: from the request of the client to the call of the
    backend. *)
Definition build_call (provider : option str) (claude_request : pyval)
  : result call :=
  let from_url := match provider with
                  | Some p => PStr p
                  | None => PNone
                  end in
  do provider_name <- (if truthy from_url then Done from_url
                       else lift (py_get config (lit "default_provider")
                                    PNone));
  do claude_model <- lift (py_get claude_request (lit "model") PNone);
  do provider_config <- get_provider_config provider_name;
  do models <- lift (py_item provider_config (lit "models"));
  do mapped <- lift (py_get_key models claude_model PNone);
  do openai_model <-
     py_or mapped
       (do models' <- lift (py_item provider_config (lit "models"));
        lift (py_get models' (lit "default") PNone));
  do claude_messages <-
     lift (py_get claude_request (lit "messages") (PList []));
  do openai_messages <- lift (claude_to_openai_messages claude_messages);
  do server <- lift (py_get config (lit "server") (PDict []));
  do config_max_tokens <- lift (py_get server (lit "max_tokens") PNone);
  do max_tokens <-
     match config_max_tokens with
     | PNone => lift (py_get claude_request (lit "max_tokens") PNone)
     | _ => Done config_max_tokens
     end;
  do stream <- lift (py_get claude_request (lit "stream") (PBool false));
  do temperature <-
     lift (py_get claude_request (lit "temperature")
             (PFloat default_temperature));
  let openai_request :=
    obj [("model", openai_model);
         ("messages", PList openai_messages);
         ("stream", stream);
         ("max_tokens", max_tokens);
         ("temperature", temperature)] in
  do api_key <- lift (py_item provider_config (lit "api_key"));
  let hdrs :=
    obj [("Authorization", PStr (lit "Bearer " ++ format api_key));
         ("Content-Type", PStr (lit "application/json"))] in
  do base_url <- lift (py_item provider_config (lit "base_url"));
  Done (Call (format base_url ++ lit "/chat/completions")
             openai_request hdrs).

(** The [except Exception] of line 145. *)
Definition internal_error (e : error) : reply :=
  JsonReply 500
    (obj [("error", obj [("type", PStr (lit "internal_error"));
                         ("message", PStr (str_exc e))])]).

(** [claude_request] is [await request.json()], [provider] the
    [{provider}] part of the path. *)
Definition handle_messages (provider : option str)
  (claude_request : result pyval) (now_ms : Z) : served :=
  match (do body <- claude_request; build_call provider body) with
  | Fail e => Served [] (internal_error e)
  | Done c =>
      match py_item (request_data c) (lit "stream") with
      | Err e => Served [] (internal_error (Builtin e))
      | Ok stream =>
          if truthy stream then
            match stream_exchange c now_ms with
            | (written, Done _) => Served written StreamReply
            | (written, Fail e) => Served written (internal_error e)
            end
          else
            match handle_normal_response c with
            | Done r => Served [] r
            | Fail e => Served [] (internal_error e)
            end
      end
  end.

(** *** [handle_models], lines 334-362

    [clock n] is [int(time.time())] at the call number [n]; the entry
    number [n] of the listing makes the call number [n]. *)
Variable clock : nat -> Z.

Fixpoint model_entries (owned_by : str) (ids : list str) (n : nat)
  : list pyval :=
  match ids with
  | [] => []
  | id :: ids' =>
      obj [("id", PStr id);
           ("object", PStr (lit "model"));
           ("created", PInt (clock n));
           ("owned_by", PStr owned_by)]
      :: model_entries owned_by ids' (S n)
  end.

(** [for prov_name, provider_config in ...items(): for claude_model in
     provider_config["models"].keys(): ...] *)
Fixpoint all_entries (items : list (str * pyval)) (n : nat)
  : res (list pyval) :=
  match items with
  | [] => Ok []
  | (prov_name, provider_config) :: items' =>
      match py_item provider_config (lit "models") with
      | Err e => Err e
      | Ok models =>
          match py_keys models with
          | Err e => Err e
          | Ok ids =>
              match all_entries items' (n + List.length ids) with
              | Err e => Err e
              | Ok rest => Ok (model_entries prov_name ids n ++ rest)
              end
          end
      end
  end.

Definition list_models (provider : option str) : res (list pyval) :=
  match provider with
  | Some (c :: p) =>
      match py_item config (lit "providers") with
      | Err e => Err e
      | Ok providers =>
          match py_get providers (c :: p) PNone with
          | Err e => Err e
          | Ok provider_config =>
              if truthy provider_config then
                match py_item provider_config (lit "models") with
                | Err e => Err e
                | Ok models =>
                    match py_keys models with
                    | Err e => Err e
                    | Ok ids => Ok (model_entries (c :: p) ids 0)
                    end
                end
              else Ok []
          end
      end
  | _ =>
      match py_item config (lit "providers") with
      | Err e => Err e
      | Ok providers =>
          match py_items providers with
          | Err e => Err e
          | Ok items => all_entries items 0
          end
      end
  end.

Definition handle_models (provider : option str) : res reply :=
  match list_models provider with
  | Err e => Err e
  | Ok models => Ok (JsonReply 200 (obj [("data", PList models)]))
  end.

End Proxy.

(** ** Vocabulary for the further properties *)

(** A line that starts with the prefix, and the payloads of such lines. *)
Definition is_data (raw : str) : bool := startswith raw (lit "data:").

Definition data_payloads (raws : list str) : list str :=
  map payload_of (filter is_data raws).


(** A continuation byte of UTF-8, and the lead bytes of the two-byte
    and of the plain three-byte sequences. *)
Definition is_cont (b : byte) : Prop :=
  0x80 <= Byte.to_N b /\ Byte.to_N b <= 0xBF.

Definition is_lead2 (b : byte) : Prop :=
  0xC2 <= Byte.to_N b /\ Byte.to_N b <= 0xDF.

Definition is_lead3 (b : byte) : Prop :=
  (0xE1 <= Byte.to_N b /\ Byte.to_N b <= 0xEC)
  \/ (0xEE <= Byte.to_N b /\ Byte.to_N b <= 0xEF).





(** A message of the backend protocol: exactly [role] and [content],
    with the role of the user or of the assistant. *)
Definition openai_message (v : pyval) : Prop :=
  exists role content,
    (role = lit "user" \/ role = lit "assistant")
    /\ v = PDict [(lit "role", PStr role); (lit "content", content)].

(** The identifier and the owner of an entry of the model listing. *)
Definition id_owner (entry : pyval) : pyval * pyval :=
  match entry with
  | PDict fields =>
      (dict_get fields (lit "id") PNone,
       dict_get fields (lit "owned_by") PNone)
  | _ => (PNone, PNone)
  end.

(** ** Stand-ins for the examples

    The results below hold for every [format] and [str_exc].  The
    examples apply [str()] to strings, integers, [None] and booleans
    only, and do not look into the message of an exception. *)
Definition format_simple (v : pyval) : str :=
  match v with
  | PStr s => s
  | PInt z => str_of_int z
  | PNone => lit "None"
  | PBool true => lit "True"
  | PBool false => lit "False"
  | _ => []
  end.

Definition str_exc_none (e : error) : str := [].

(** The items of a dict of the source. *)
Definition fields (l : list (string * pyval)) : list (str * pyval) :=
  map (fun kv => (lit (fst kv), snd kv)) l.

(** The provider a request is routed to, lines 91-94 with 72-73: the
    one named in the URL; on a route that names none, the
    [default_provider] of the configuration, and [siliconflow] when
    the configuration has no such entry. *)
Definition routed_provider (cfg : list (str * pyval))
  (provider : option str) : pyval :=
  match provider with
  | Some (x :: p) => PStr (x :: p)
  | _ =>
      if truthy (dict_get cfg (lit "default_provider") PNone)
      then dict_get cfg (lit "default_provider") PNone
      else dict_get cfg (lit "default_provider") (PStr (lit "siliconflow"))
  end.

(** A configuration with two providers, for the examples. *)
Definition providers_example : list (str * pyval) :=
  fields
    [("siliconflow",
      obj [("base_url", PStr (lit "https://api.siliconflow.cn/v1"));
           ("api_key", PStr (lit "sk-1"));
           ("models",
            obj [("claude-3-5-sonnet-20241022",
                  PStr (lit "Qwen/Qwen2.5-72B-Instruct"));
                 ("default", PStr (lit "Qwen/Qwen2.5-7B-Instruct"))])]);
     ("deepseek",
      obj [("base_url", PStr (lit "https://api.deepseek.com/v1"));
           ("api_key", PStr (lit "sk-2"));
           ("models", obj [("default", PStr (lit "deepseek-chat"))])])].

Definition server_example : pyval :=
  obj [("host", PStr (lit "127.0.0.1"));
       ("port", PInt 8000);
       ("max_tokens", PInt 4096)].

Definition config_fields_example : list (str * pyval) :=
  fields [("default_provider", PStr (lit "siliconflow"));
          ("server", server_example);
          ("providers", PDict providers_example)].

Definition config_example : pyval := PDict config_fields_example.

(** A request of a client, for the examples. *)
Definition request_fields_example (model : string) (stream : bool)
  : list (str * pyval) :=
  fields [("model", PStr (lit model));
          ("max_tokens", PInt 100);
          ("stream", PBool stream);
          ("system", PStr (lit "be brief"));
          ("messages",
           PList [obj [("role", PStr (lit "user"));
                       ("content", PStr (lit "hello"))]])].

Definition request_example (model : string) (stream : bool) : pyval :=
  PDict (request_fields_example model stream).

(** Backends for the examples: one that answers with a stream of one
    fragment, one that refuses with status 429, one that cannot be
    reached. *)
Definition backend_ok (c : call) : result upstream :=
  Done (Upstream 200 [] (Fail ClientError)
          [Recv (ln "data: {'choices': [{'delta': {'content': 'Hi'}}]}");
           Recv (ln "data: [DONE]")]).

Definition backend_busy (c : call) : result upstream :=
  Done (Upstream 429 (lit "slow down") (Fail ClientError) []).

Definition backend_down (c : call) : result upstream := Fail ClientError.

(** * Properties *)

Lemma str_eqb_eq a b : str_eqb a b = true <-> a = b.
Proof.
  unfold str_eqb. destruct (list_eq_dec N.eq_dec a b); split; congruence.
Qed.

Lemma str_eqb_refl a : str_eqb a a = true.
Proof. now apply str_eqb_eq. Qed.

(** ** The loops *)
Section Loops.

Variable json_loads : str -> option pyval.

(** A line writes nothing or one [content_block_delta]. *)
Lemma write_delta_frames ch w :
  write_delta ch = Ok w -> exists cs, w = map content_delta cs.
Proof.
  unfold write_delta. intros H.
  destruct (py_get ch (lit "delta") (PDict [])) as [delta|]; [|discriminate].
  destruct (truthy delta).
  - destruct (py_get delta (lit "content") PNone) as [content|];
      [|discriminate].
    destruct (truthy content); injection H as <-.
    + now exists [content].
    + now exists [].
  - injection H as <-. now exists [].
Qed.

Lemma on_raw_frames final_stop raw :
  exists cs, fst (on_raw json_loads final_stop raw) = map content_delta cs.
Proof.
  unfold on_raw.
  destruct (negb (startswith raw (lit "data:"))); [now exists []|].
  destruct (str_eqb _ _); [now exists []|].
  destruct (json_loads _) as [data|]; [|now exists []].
  destruct (first_choice data) as [ch|]; [|now exists []].
  destruct (write_delta ch) as [w|] eqn:W; [|now exists []].
  apply write_delta_frames in W. exact W.
Qed.

Lemma for_raw_frames final_stop raws :
  exists cs, fst (for_raw json_loads final_stop raws) = map content_delta cs.
Proof.
  induction raws as [|raw raws IH]; simpl.
  - now exists [].
  - destruct (on_raw_frames final_stop raw) as [cs Hcs].
    destruct (on_raw json_loads final_stop raw) as [w c].
    simpl in Hcs. subst w.
    destruct IH as [cs' Hcs'].
    destruct (for_raw json_loads final_stop raws) as [w' c'].
    simpl in Hcs'. subst w'.
    destruct c; simpl.
    + exists (cs ++ cs'). now rewrite map_app.
    + now exists cs.
    + now exists cs.
Qed.

(** The lines of a chunk are read in order, up to the first one that
    leaves the loop. *)
Lemma for_raw_app final_stop a b :
  for_raw json_loads final_stop (a ++ b) =
  match for_raw json_loads final_stop a with
  | (w, Continue) =>
      let (w', c) := for_raw json_loads final_stop b in (w ++ w', c)
  | r => r
  end.
Proof.
  induction a as [|raw a IH]; simpl.
  - now destruct (for_raw json_loads final_stop b).
  - destruct (on_raw json_loads final_stop raw) as [w c].
    destruct c; try reflexivity.
    rewrite IH.
    destruct (for_raw json_loads final_stop a) as [w1 c1].
    destruct c1; try reflexivity.
    destruct (for_raw json_loads final_stop b) as [w2 c2].
    now rewrite app_assoc.
Qed.

(** Leaving the inner loop with [done] set leaves the outer loop too,
    so the chunk loop is the line loop over all lines of all chunks. *)
Lemma for_chunk_lines final_stop chunks rest :
  for_chunk json_loads final_stop (map Recv chunks ++ rest) =
  match for_raw json_loads final_stop (frame_lines chunks) with
  | (w, Continue) =>
      let (w', r) := for_chunk json_loads final_stop rest in (w ++ w', r)
  | (w, Break final_stop') => (w, Ok final_stop')
  | (w, Raise e) => (w, Err e)
  end.
Proof.
  induction chunks as [|chunk chunks IH].
  - simpl. now destruct (for_chunk json_loads final_stop rest).
  - change (frame_lines (chunk :: chunks))
      with (chunk_lines chunk ++ frame_lines chunks).
    rewrite for_raw_app.
    destruct chunk as [|b chunk].
    + simpl. rewrite IH.
      now destruct (for_raw json_loads final_stop (frame_lines chunks)).
    + change (map Recv ((b :: chunk) :: chunks) ++ rest)
        with (Recv (b :: chunk) :: (map Recv chunks ++ rest)).
      cbn [for_chunk chunk_lines].
      destruct (for_raw json_loads final_stop
                  (splitlines (decode_ignore (b :: chunk)))) as [w c].
      destruct c; try reflexivity.
      rewrite IH.
      destruct (for_raw json_loads final_stop (frame_lines chunks)) as [w1 c1].
      destruct c1; try reflexivity.
      destruct (for_chunk json_loads final_stop rest) as [w2 r2].
      now rewrite app_assoc.
Qed.

End Loops.

(** ** The Frame Reader *)
Module Utf8Facts.
Import Utf8.

Lemma wf_idle : wf idle.
Proof. now left. Qed.

Lemma start_wf b : wf (fst (start b)).
Proof.
  unfold start, wf.
  repeat match goal with
         | |- context [if ?c then _ else _] => destruct c
         end; simpl; solve [now left | right; lia].
Qed.

Lemma step_wf st b : wf (fst (step st b)).
Proof.
  unfold step. destruct (need st) as [|n]; [apply start_wf|].
  destruct (_ && _); [|apply start_wf].
  destruct n; simpl; [now left | right; simpl; lia].
Qed.

(** An ASCII byte ends whatever was pending and is decoded as itself. *)
Lemma step_ascii st c : wf st -> c < 0x80 -> step st c = (idle, [c]).
Proof.
  intros Hwf Hc.
  assert (Hs : start c = (idle, [c])).
  { unfold start. destruct (N.ltb_spec c 0x80); [reflexivity | lia]. }
  unfold step. destruct (need st) as [|n] eqn:Hn; [exact Hs|].
  destruct Hwf as [H0|Hlo]; [congruence|].
  destruct (N.leb_spec (lo st) c); [lia|]. simpl. exact Hs.
Qed.

Lemma run_ascii_cut c b :
  c < 0x80 ->
  forall a st, wf st ->
    run st (a ++ c :: b) = run st a ++ c :: run idle b.
Proof.
  intros Hc a. induction a as [|x a IH]; intros st Hwf; simpl.
  - now rewrite (step_ascii Hwf Hc).
  - pose proof (step_wf st x) as Hwf'.
    destruct (step st x) as [st' o]. simpl in Hwf'.
    rewrite (IH st' Hwf'). now rewrite app_assoc.
Qed.

End Utf8Facts.

(** Decoding a chunk that ends with a line feed does not depend on the
    bytes that follow it. *)
Lemma decode_ignore_lf a b :
  decode_ignore (a ++ x0a :: b) = decode_ignore a ++ LF :: decode_ignore b.
Proof.
  unfold decode_ignore. rewrite map_app. simpl.
  apply Utf8Facts.run_ascii_cut; [reflexivity | apply Utf8Facts.wf_idle].
Qed.

Lemma splitlines_from_lf_le n :
  forall s cur t, (List.length s <= n)%nat ->
    splitlines_from cur (s ++ LF :: t) =
    splitlines_from cur (s ++ [LF]) ++ splitlines_from [] t.
Proof.
  assert (base : forall cur t,
    splitlines_from cur (LF :: t) =
    splitlines_from cur [LF] ++ splitlines_from [] t).
  { intros cur t. destruct t; reflexivity. }
  induction n as [|n IH]; intros s cur t Hn.
  - destruct s; [apply base | simpl in Hn; lia].
  - destruct s as [|c s']; [apply base|].
    simpl in Hn.
    change ((c :: s') ++ LF :: t) with (c :: (s' ++ LF :: t)).
    change ((c :: s') ++ [LF]) with (c :: (s' ++ [LF])).
    cbn [splitlines_from].
    destruct (islinebreak c).
    + destruct s' as [|d s''].
      * cbn [app]. change (LF =? LF) with true.
        destruct (c =? CR); cbn [andb].
        -- reflexivity.
        -- now rewrite base.
      * cbn [app]. simpl in Hn.
        destruct ((c =? CR) && (d =? LF)).
        -- cbn [app]. f_equal. apply IH. lia.
        -- change (d :: s'' ++ LF :: t) with ((d :: s'') ++ LF :: t).
           change (d :: s'' ++ [LF]) with ((d :: s'') ++ [LF]).
           cbn [app]. f_equal.
           change (d :: s'' ++ LF :: t) with ((d :: s'') ++ LF :: t).
           change (d :: s'' ++ [LF]) with ((d :: s'') ++ [LF]).
           apply IH. simpl. lia.
    + apply IH. lia.
Qed.

Lemma splitlines_lf s t :
  splitlines (s ++ LF :: t) = splitlines (s ++ [LF]) ++ splitlines t.
Proof. exact (@splitlines_from_lf_le _ s [] t (le_n (List.length s))). Qed.

Lemma ends_lf_inv chunk :
  ends_lf chunk = true -> chunk = [] \/ exists c, chunk = c ++ [x0a].
Proof.
  unfold ends_lf. intros H.
  destruct (rev chunk) as [|b r] eqn:E.
  - left. apply (f_equal (@rev byte)) in E. now rewrite rev_involutive in E.
  - right. exists (rev r).
    apply Byte.byte_dec_bl in H. subst b.
    apply (f_equal (@rev byte)) in E. now rewrite rev_involutive in E.
Qed.

Lemma chunk_lines_decode chunk :
  chunk_lines chunk = splitlines (decode_ignore chunk).
Proof. now destruct chunk. Qed.

(** When the chunks are cut at line ends, the lines are those of the
    whole byte sequence. *)
Lemma frame_lines_aligned chunks :
  line_aligned chunks = true ->
  frame_lines chunks = splitlines (decode_ignore (List.concat chunks)).
Proof.
  unfold line_aligned.
  induction chunks as [|chunk chunks IH]; intros H; [reflexivity|].
  change (frame_lines (chunk :: chunks))
    with (chunk_lines chunk ++ frame_lines chunks).
  rewrite chunk_lines_decode.
  destruct chunks as [|chunk2 chunks].
  - simpl. now rewrite !app_nil_r.
  - change (removelast (chunk :: chunk2 :: chunks))
      with (chunk :: removelast (chunk2 :: chunks)) in H.
    cbn [forallb] in H. apply andb_prop in H. destruct H as [H1 H2].
    rewrite (IH H2).
    change (List.concat (chunk :: chunk2 :: chunks))
      with (chunk ++ List.concat (chunk2 :: chunks)).
    destruct (ends_lf_inv _ H1) as [->|[c ->]]; [reflexivity|].
    rewrite <- app_assoc. cbn [app].
    rewrite !decode_ignore_lf.
    change (decode_ignore []) with (@nil N).
    symmetry. apply splitlines_lf.
Qed.

(** C1, as stated, does not hold: the loop keeps no buffer between
    chunks.  The bytes of the line [data: x] give one line when they
    arrive in one chunk and two lines, [da] and [ta: x], when the chunk
    boundary falls inside the line. *)
Lemma C1_split_inside_line_changes_lines :
  List.concat [dq "da"; ln "ta: x"] = List.concat [ln "data: x"] /\
  frame_lines [dq "da"; ln "ta: x"] = [lit "da"; lit "ta: x"] /\
  frame_lines [ln "data: x"] = [lit "data: x"] /\
  frame_lines [dq "da"; ln "ta: x"] <> frame_lines [ln "data: x"].
Proof.
  repeat split; try reflexivity. vm_compute. discriminate.
Qed.

(** C1, amended: two ways of splitting the same byte sequence into
    chunks give the same sequence of lines when in both every chunk but
    the last is empty or ends with a line feed, that is when no chunk
    boundary falls inside a line.  Each chunk is decoded and cut into
    lines by itself; nothing is kept for the next chunk. *)
Theorem C1_lines_of_line_aligned_splits (a b : list bytes) :
  List.concat a = List.concat b ->
  line_aligned a = true ->
  line_aligned b = true ->
  frame_lines a = frame_lines b.
Proof.
  intros Hab Ha Hb.
  rewrite (frame_lines_aligned a Ha), (frame_lines_aligned b Hb).
  now rewrite Hab.
Qed.

Lemma C1_lines_of_line_aligned_splits_witness :
  let a := [ln "data: x"; ln "data: y"; dq "data: z"] in
  let b := [ln "data: x" ++ ln "data: y" ++ dq "data: z"] in
  List.concat a = List.concat b /\
  line_aligned a = true /\ line_aligned b = true /\
  frame_lines a = frame_lines b.
Proof.
  intros a b.
  split; [reflexivity|]. split; [reflexivity|]. split; [reflexivity|].
  apply (@C1_lines_of_line_aligned_splits a b); reflexivity.
Defined.

(** What the missing buffer costs: the delta of a line that arrives in
    two chunks is lost, and nothing is reported. *)
Example split_line_loses_delta :
  handle_stream_response Json.loads 200 [] PNone 1
    [Recv (dq "data: {'choices': [{'delta': ");
     Recv (ln "{'content': 'Hi'}}]}")]
  = (opening 1 PNone ++ closing (lit "end_turn"), Returned)
  /\
  handle_stream_response Json.loads 200 [] PNone 1
    [Recv (dq "data: {'choices': [{'delta': " ++ ln "{'content': 'Hi'}}]}")]
  = (opening 1 PNone ++ [content_delta (PStr (lit "Hi"))]
     ++ closing (lit "end_turn"), Returned).
Proof. split; reflexivity. Qed.

(** ** The shape of the output *)
Section Shape.

Variable json_loads : str -> option pyval.

Lemma for_chunk_frames final_stop stream :
  exists cs, fst (for_chunk json_loads final_stop stream)
             = map content_delta cs.
Proof.
  induction stream as [|r stream IH]; [now exists []|].
  destruct r as [chunk|]; [|now exists []].
  destruct chunk as [|b chunk]; [exact IH|].
  cbn [for_chunk].
  destruct (for_raw_frames json_loads final_stop
              (splitlines (decode_ignore (b :: chunk)))) as [cs Hcs].
  destruct (for_raw json_loads final_stop _) as [w c].
  simpl in Hcs. subst w.
  destruct c; [|now exists cs|now exists cs].
  destruct IH as [cs' Hcs'].
  destruct (for_chunk json_loads final_stop stream) as [w' r'].
  simpl in Hcs'. subst w'. exists (cs ++ cs'). simpl. now rewrite map_app.
Qed.

(** Either the single error event, or the opening, the deltas and,
    unless an exception cut the function short, the closing. *)
Lemma handle_stream_response_shape status text model now_ms stream :
  (status <> 200%Z /\
   handle_stream_response json_loads status text model now_ms stream
   = ([error_event text], Returned))
  \/
  exists cs tl,
    fst (handle_stream_response json_loads status text model now_ms stream)
    = opening now_ms model ++ map content_delta cs ++ tl
    /\ (tl = [] \/ exists final_stop, tl = closing final_stop).
Proof.
  unfold handle_stream_response.
  destruct (Z.eqb_spec status 200) as [->|Hne]; simpl.
  - right.
    destruct (for_chunk_frames (lit "end_turn") stream) as [cs Hcs].
    destruct (for_chunk json_loads (lit "end_turn") stream) as [w r].
    simpl in Hcs. subst w. exists cs.
    destruct r as [final_stop|e].
    + exists (closing final_stop). split; [reflexivity|]. right. now eexists.
    + exists []. split; [now rewrite app_nil_r|]. now left.
  - left. now split.
Qed.

End Shape.

(** Where each kind of event can stand in an output of that shape. *)
Section Positions.

Variables (now_ms : Z) (model : pyval) (cs : list pyval) (tl : list frame).
Hypothesis tl_closing : tl = [] \/ exists final_stop, tl = closing final_stop.

Let out := opening now_ms model ++ map content_delta cs ++ tl.

Lemma nth_error_out i f :
  nth_error out i = Some f ->
  (i = 0 /\ f = msg_start (message_id now_ms) model)%nat
  \/ (i = 1 /\ f = content_start)%nat
  \/ (i = 2 /\ f = ping)%nat
  \/ (3 <= i < 3 + List.length cs /\ exists c, f = content_delta c)%nat
  \/ exists final_stop, tl = closing final_stop /\
       ((i = 3 + List.length cs /\ f = content_stop)%nat
        \/ (i = 4 + List.length cs /\ f = message_delta final_stop)%nat
        \/ (i = 5 + List.length cs /\ f = message_stop)%nat).
Proof.
  unfold out, opening. intros H.
  destruct i as [|[|[|i]]]; simpl in H.
  - left. split; congruence.
  - right; left. split; congruence.
  - right; right; left. split; congruence.
  - right; right; right.
    destruct (Nat.lt_ge_cases i (List.length (map content_delta cs)))
      as [Hlt|Hge].
    + left. rewrite nth_error_app1 in H by exact Hlt.
      rewrite length_map in Hlt. split; [lia|].
      rewrite nth_error_map in H.
      destruct (nth_error cs i) as [c|]; [|discriminate].
      exists c. simpl in H. congruence.
    + right. rewrite nth_error_app2 in H by exact Hge.
      rewrite length_map in *.
      destruct tl_closing as [->|[final_stop ->]].
      * now destruct (i - List.length cs)%nat.
      * exists final_stop. split; [reflexivity|].
        remember (i - List.length cs)%nat as k eqn:Hk.
        destruct k as [|[|[|k]]]; simpl in H.
        -- left. split; [lia | congruence].
        -- right; left. split; [lia | congruence].
        -- right; right. split; [lia | congruence].
        -- now destruct k.
Qed.

Ltac positions H :=
  destruct H as [f [Hn Hf]];
  apply nth_error_out in Hn;
  destruct Hn as [[? ->]|[[? ->]|[[? ->]|[[? [c ->]]|
                  [fs [? [[? ->]|[[? ->]|[? ->]]]]]]]]];
  try (cbv in Hf; discriminate Hf).

Lemma delta_position i :
  at_index out i "content_block_delta" ->
  (3 <= i < 3 + List.length cs)%nat.
Proof. intros H. positions H. assumption. Qed.

Lemma start_position i :
  at_index out i "content_block_start" -> i = 1%nat.
Proof. intros H. positions H. assumption. Qed.

Lemma stop_position i :
  at_index out i "content_block_stop" -> i = (3 + List.length cs)%nat.
Proof. intros H. positions H. assumption. Qed.

Lemma message_stop_position i :
  at_index out i "message_stop" -> i = (5 + List.length cs)%nat.
Proof. intros H. positions H. assumption. Qed.

Lemma start_is_second : at_index out 1 "content_block_start".
Proof. exists content_start. split; reflexivity. Qed.

End Positions.

Lemma at_index_error_only text i name :
  at_index [error_event text] i name -> named name (error_event text) = true.
Proof.
  intros [f [Hn Hf]].
  destruct i as [|i]; simpl in Hn.
  - now injection Hn as <-.
  - now destruct i.
Qed.

(** C3: in every output of the streaming path, whatever the backend
    sent and however the function ended, each [content_block_delta]
    stands after the [content_block_start] and before every
    [content_block_stop]; [content_block_start], [content_block_stop]
    and [message_stop] stand in this order, and each of them occurs at
    one place at most. *)
Theorem C3_block_events_are_ordered
  (json_loads : str -> option pyval)
  (status : Z) (text : str) (model : pyval) (now_ms : Z)
  (stream : list recv) :
  let out :=
    fst (handle_stream_response json_loads status text model now_ms stream) in
  (forall i, at_index out i "content_block_delta" ->
     (exists j, (j < i)%nat /\ at_index out j "content_block_start") /\
     (forall k, at_index out k "content_block_stop" -> (i < k)%nat)) /\
  (forall j k, at_index out j "content_block_start" ->
               at_index out k "content_block_stop" -> (j < k)%nat) /\
  (forall k m, at_index out k "content_block_stop" ->
               at_index out m "message_stop" -> (k < m)%nat) /\
  (forall name i j,
     name = "content_block_start" \/ name = "content_block_stop"
     \/ name = "message_stop" ->
     at_index out i name -> at_index out j name -> i = j).
Proof.
  intros out. subst out.
  destruct (handle_stream_response_shape json_loads status text model
              now_ms stream) as [[_ ->]|[cs [tl [-> Htl]]]]; simpl fst.
  - repeat split; intros;
      repeat match goal with
             | H : _ \/ _ |- _ => destruct H
             end; subst;
      match goal with
      | H : at_index [error_event text] _ _ |- _ =>
          apply at_index_error_only in H; cbv in H; discriminate H
      end.
  - split; [|split; [|split]].
    + intros i Hi.
      apply (@delta_position now_ms model cs tl Htl) in Hi. split.
      * exists 1%nat. split; [lia | now apply start_is_second].
      * intros k Hk.
        apply (@stop_position now_ms model cs tl Htl) in Hk. lia.
    + intros j k Hj Hk. apply (@start_position now_ms model cs tl Htl) in Hj.
      apply (@stop_position now_ms model cs tl Htl) in Hk. lia.
    + intros k m Hk Hm. apply (@stop_position now_ms model cs tl Htl) in Hk.
      apply (@message_stop_position now_ms model cs tl Htl) in Hm. lia.
    + intros name i j [-> | [-> | ->]] Hi Hj.
      * apply (@start_position now_ms model cs tl Htl) in Hi, Hj. lia.
      * apply (@stop_position now_ms model cs tl Htl) in Hi, Hj. lia.
      * apply (@message_stop_position now_ms model cs tl Htl) in Hi, Hj. lia.
Qed.

(** ** Well-formed payloads never raise *)

Lemma dict_get_cases d key a b :
  (dict_get d key a = a /\ dict_get d key b = b)
  \/ dict_get d key a = dict_get d key b.
Proof.
  induction d as [|[k v] d IH]; simpl.
  - now left.
  - destruct (str_eqb k key); [now right | exact IH].
Qed.

Lemma choice_shape_safe ch :
  choice_shape ch = true ->
  (exists w, write_delta ch = Ok w) /\
  (check_finish ch = Continue \/ exists f, check_finish ch = Break f).
Proof.
  destruct ch as [| | | | | |c]; try discriminate.
  unfold choice_shape, write_delta, check_finish. cbn [py_get].
  intros H. apply andb_prop in H. destruct H as [Hd Hf]. split.
  - destruct (dict_get_cases c (lit "delta") PNone (PDict []))
      as [[_ ->]|E].
    + simpl. now eexists.
    + rewrite <- E.
      destruct (dict_get c (lit "delta") PNone) as [| | | | | |d];
        try discriminate; simpl; [now eexists|].
      destruct d as [|kv d]; [now eexists|].
      destruct (dict_get (kv :: d) (lit "content") PNone) as [| | | |t| |];
        try discriminate; simpl; [now eexists|].
      destruct t; now eexists.
  - destruct (dict_get c (lit "finish_reason") PNone) as [| | | |t| |];
      try discriminate; simpl; [now left|].
    destruct t; [now left|]. right. now eexists.
Qed.

Lemma event_payload_choice v :
  event_payload v = true ->
  exists ch, first_choice v = Ok ch /\ choice_shape ch = true.
Proof.
  destruct v as [| | | | | |top]; try discriminate.
  unfold event_payload, first_choice. cbn [py_get].
  destruct (dict_get top (lit "choices") (PList [PDict []]))
    as [| | | | |l|]; try discriminate.
  destruct l as [|ch l]; [discriminate|].
  intros H. now exists ch.
Qed.

Section WellFormed.

Variable json_loads : str -> option pyval.

Lemma on_raw_safe final_stop raw e :
  line_ok json_loads raw = true ->
  snd (on_raw json_loads final_stop raw) <> Raise e.
Proof.
  unfold line_ok, event_of, on_raw, payload_of.
  destruct (startswith raw (lit "data:")); simpl; [|discriminate].
  destruct (str_eqb _ _); [discriminate|].
  destruct (json_loads _) as [data|]; [|discriminate].
  intros H. apply event_payload_choice in H.
  destruct H as [ch [-> Hch]].
  apply choice_shape_safe in Hch.
  destruct Hch as [[w ->] [->|[f ->]]]; discriminate.
Qed.

Lemma for_raw_safe final_stop raws e :
  forallb (line_ok json_loads) raws = true ->
  snd (for_raw json_loads final_stop raws) <> Raise e.
Proof.
  induction raws as [|raw raws IH]; simpl; [discriminate|].
  intros H. apply andb_prop in H. destruct H as [H1 H2].
  pose proof (@on_raw_safe final_stop raw e H1) as Hs.
  destruct (on_raw json_loads final_stop raw) as [w c].
  specialize (IH H2).
  destruct (for_raw json_loads final_stop raws) as [w' c'].
  destruct c; simpl in *; congruence.
Qed.

End WellFormed.

(** No event but [content_block_delta] among the deltas. *)
Lemma count_named_deltas name cs :
  str_eqb (lit "content_block_delta") (lit name) = false ->
  count_named name (map content_delta cs) = 0%nat.
Proof.
  intros H. unfold count_named.
  induction cs as [|c cs IH]; [reflexivity|].
  cbn [map filter].
  change (named name (content_delta c))
    with (str_eqb (lit "content_block_delta") (lit name)).
  now rewrite H.
Qed.

Lemma count_named_app name a b :
  count_named name (a ++ b)
  = (count_named name a + count_named name b)%nat.
Proof. unfold count_named. now rewrite filter_app, length_app. Qed.

(** C2: on the success path, when the backend body arrives without a
    transport failure and every structured payload has the protocol's
    shape, the function returns and its output is the opening, then
    the deltas, then [content_block_stop], [message_delta] and
    [message_stop] in this order; each of the three occurs once.  This
    holds whether the loop ended on a finish reason, on [[DONE]] or at
    the end of the body, hence in particular for the streams with one
    finish-reason payload. *)
Theorem C2_closing_sequence_once
  (json_loads : str -> option pyval)
  (text : str) (model : pyval) (now_ms : Z) (chunks : list bytes) :
  forallb (line_ok json_loads) (frame_lines chunks) = true ->
  exists cs final_stop,
    let out :=
      opening now_ms model ++ map content_delta cs
      ++ [content_stop; message_delta final_stop; message_stop] in
    handle_stream_response json_loads 200 text model now_ms
      (map Recv chunks) = (out, Returned)
    /\ count_named "content_block_stop" out = 1%nat
    /\ count_named "message_delta" out = 1%nat
    /\ count_named "message_stop" out = 1%nat.
Proof.
  intros Hok.
  unfold handle_stream_response. cbn [Z.eqb Pos.eqb negb].
  rewrite <- (app_nil_r (map Recv chunks)), for_chunk_lines.
  pose proof (fun e => @for_raw_safe json_loads (lit "end_turn")
                         (frame_lines chunks) e Hok) as Hsafe.
  destruct (for_raw_frames json_loads (lit "end_turn") (frame_lines chunks))
    as [cs Hcs].
  destruct (for_raw json_loads (lit "end_turn") (frame_lines chunks))
    as [w c].
  simpl in Hcs, Hsafe. subst w.
  assert (counts : forall final_stop,
    let out := opening now_ms model ++ map content_delta cs
               ++ [content_stop; message_delta final_stop; message_stop] in
    count_named "content_block_stop" out = 1%nat
    /\ count_named "message_delta" out = 1%nat
    /\ count_named "message_stop" out = 1%nat).
  { intros final_stop out. subst out.
    rewrite !count_named_app, !count_named_deltas by reflexivity.
    repeat split; reflexivity. }
  destruct c as [|final_stop|e].
  - exists cs, (lit "end_turn"). cbn [for_chunk]. rewrite app_nil_r.
    split; [reflexivity | apply counts].
  - exists cs, final_stop. split; [reflexivity | apply counts].
  - now elim (Hsafe e).
Qed.

Lemma C2_closing_sequence_once_witness :
  let chunks :=
    [ln "data: {'choices': [{'delta': {'content': 'Hi'}}]}";
     ln "data: {'choices': [{'delta': {}, 'finish_reason': 'stop'}]}"] in
  forallb (line_ok Json.loads) (frame_lines chunks) = true /\
  exists cs final_stop,
    let out :=
      opening 1 PNone ++ map content_delta cs
      ++ [content_stop; message_delta final_stop; message_stop] in
    handle_stream_response Json.loads 200 [] PNone 1 (map Recv chunks)
    = (out, Returned)
    /\ count_named "content_block_stop" out = 1%nat
    /\ count_named "message_delta" out = 1%nat
    /\ count_named "message_stop" out = 1%nat.
Proof.
  intros chunks. split; [reflexivity|].
  apply (@C2_closing_sequence_once Json.loads [] PNone 1%Z chunks).
  reflexivity.
Defined.

(** Scenario A: one fragment, then the finish reason [stop]. *)
Example scenario_A :
  map event
    (fst (handle_stream_response Json.loads 200 [] PNone 1
            [Recv (ln "data: {'choices': [{'delta': {'content': 'Hi'}}]}");
             Recv (ln "data: {'choices': [{'finish_reason': 'stop'}]}")]))
  = map lit ["message_start"; "content_block_start"; "ping";
             "content_block_delta"; "content_block_stop"; "message_delta";
             "message_stop"].
Proof. reflexivity. Qed.

(** ** Transport failure *)

(** C4, as stated, does not hold: the chunk loop stands in no [try]
    block.  When the body iterator raises after one delta, the
    exception leaves the function; the output ends with that delta and
    holds no [content_block_stop], [message_delta] or [message_stop]. *)
Lemma C4_transport_error_leaves_block_open :
  let stream :=
    [Recv (ln "data: {'choices': [{'delta': {'content': 'Hi'}}]}");
     Broken] in
  let run := handle_stream_response Json.loads 200 [] PNone 1 stream in
  run = (opening 1 PNone ++ [content_delta (PStr (lit "Hi"))],
         Raised TransportError)
  /\ count_named "content_block_stop" (fst run) = 0%nat
  /\ count_named "message_delta" (fst run) = 0%nat
  /\ count_named "message_stop" (fst run) = 0%nat.
Proof. repeat split; reflexivity. Qed.

(** C4, amended: when the backend transport fails after the opening
    and before a finishing condition was met, the exception leaves the
    function: the output is the opening followed by the deltas written
    so far, and none of [content_block_stop], [message_delta] and
    [message_stop] is written. *)
Theorem C4_transport_error_propagates
  (json_loads : str -> option pyval)
  (text : str) (model : pyval) (now_ms : Z)
  (chunks : list bytes) (rest : list recv) (w : list frame) :
  for_raw json_loads (lit "end_turn") (frame_lines chunks) = (w, Continue) ->
  let out := opening now_ms model ++ w in
  handle_stream_response json_loads 200 text model now_ms
    (map Recv chunks ++ Broken :: rest) = (out, Raised TransportError)
  /\ count_named "content_block_stop" out = 0%nat
  /\ count_named "message_delta" out = 0%nat
  /\ count_named "message_stop" out = 0%nat.
Proof.
  intros Hw out. subst out.
  unfold handle_stream_response. cbn [Z.eqb Pos.eqb negb].
  rewrite for_chunk_lines, Hw. cbn [for_chunk]. rewrite app_nil_r.
  split; [reflexivity|].
  destruct (for_raw_frames json_loads (lit "end_turn") (frame_lines chunks))
    as [cs Hcs].
  rewrite Hw in Hcs. simpl in Hcs. subst w.
  rewrite !count_named_app, !count_named_deltas by reflexivity.
  repeat split; reflexivity.
Qed.

Lemma C4_transport_error_propagates_witness :
  let chunks := [ln "data: {'choices': [{'delta': {'content': 'Hi'}}]}"] in
  let w := [content_delta (PStr (lit "Hi"))] in
  for_raw Json.loads (lit "end_turn") (frame_lines chunks) = (w, Continue) /\
  let out := opening 1 PNone ++ w in
  handle_stream_response Json.loads 200 [] PNone 1
    (map Recv chunks ++ Broken :: []) = (out, Raised TransportError)
  /\ count_named "content_block_stop" out = 0%nat
  /\ count_named "message_delta" out = 0%nat
  /\ count_named "message_stop" out = 0%nat.
Proof.
  intros chunks w. split; [reflexivity|].
  apply (@C4_transport_error_propagates Json.loads [] PNone 1%Z chunks [] w).
  reflexivity.
Defined.

(** ** The run over well-formed lines *)
Section Shaped.

Variable json_loads : str -> option pyval.

(** What a well-formed line does: it writes the delta of its text, if
    it has one, and it leaves the loop exactly when it is a finishing
    line, with the reason the table gives. *)
Lemma on_raw_shaped final_stop raw :
  line_ok json_loads raw = true ->
  on_raw json_loads final_stop raw
  = (map (fun t => content_delta (PStr t)) (shown_fragment json_loads raw),
     if is_done raw then Break final_stop
     else match finish_reason_of json_loads raw with
          | Some s => Break (stop_reason_of s)
          | None => Continue
          end).
Proof.
  unfold line_ok, shown_fragment, fragment_of, finish_reason_of, finish_of,
    is_done, event_of, on_raw, payload_of.
  destruct (startswith raw (lit "data:")); simpl; [|reflexivity].
  destruct (str_eqb _ _); simpl; [reflexivity|].
  destruct (json_loads _) as [data|]; [|reflexivity].
  destruct data as [| | | | | |top]; try discriminate.
  unfold event_payload, choice0, first_choice. cbn [py_get].
  destruct (dict_get_cases top (lit "choices") PNone (PList [PDict []]))
    as [[-> ->]|E]; [reflexivity|].
  rewrite <- E.
  destruct (dict_get top (lit "choices") PNone) as [| | | | |l|];
    try discriminate.
  destruct l as [|ch l]; [discriminate|].
  destruct ch as [| | | | | |c]; try discriminate.
  cbn [py_item0 choice_shape]. unfold write_delta, check_finish.
  cbn [py_get].
  intros H. apply andb_prop in H. destruct H as [Hd Hf].
  assert (Hfin :
    (if truthy (dict_get c (lit "finish_reason") PNone)
     then match map_finish (dict_get c (lit "finish_reason") PNone) with
          | Ok f => Break f
          | Err e => Raise e
          end
     else Continue)
    = match
        match dict_get c (lit "finish_reason") PNone with
        | PNone => None
        | fin => Some fin
        end
      with
      | Some (PStr (y :: s)) => Break (stop_reason_of (y :: s))
      | _ => Continue
      end).
  { destruct (dict_get c (lit "finish_reason") PNone) as [| | | |s| |];
      try discriminate; [reflexivity|].
    destruct s; reflexivity. }
  destruct (dict_get_cases c (lit "delta") PNone (PDict []))
    as [[-> ->]|Ed].
  - cbn [truthy map]. rewrite Hfin.
    destruct (dict_get c (lit "finish_reason") PNone) as [| | | |s| |];
      try reflexivity.
    destruct s; reflexivity.
  - rewrite <- Ed.
    destruct (dict_get c (lit "delta") PNone) as [| | | | | |d];
      try discriminate.
    + cbn [truthy map]. rewrite Hfin.
      destruct (dict_get c (lit "finish_reason") PNone) as [| | | |s| |];
        try reflexivity.
      destruct s; reflexivity.
    + destruct d as [|kv d].
      * cbn [truthy map dict_get]. rewrite Hfin.
        destruct (dict_get c (lit "finish_reason") PNone) as [| | | |s| |];
          try reflexivity.
        destruct s; reflexivity.
      * cbn [truthy py_get].
        destruct (dict_get (kv :: d) (lit "content") PNone) as [| | | |t| |];
          try discriminate.
        -- cbn [truthy map]. rewrite Hfin.
           destruct (dict_get c (lit "finish_reason") PNone) as [| | | |s| |];
             try reflexivity.
           destruct s; reflexivity.
        -- destruct t as [|x t]; cbn [truthy map]; rewrite Hfin;
             (destruct (dict_get c (lit "finish_reason") PNone)
                as [| | | |s| |]; try reflexivity;
              destruct s; reflexivity).
Qed.

(** Any line whose payload carries a fragment writes it, unless it is
    empty; nothing is asked of the rest of the payload. *)
Lemma on_raw_fragment final_stop raw t :
  fragment_of json_loads raw = Some t ->
  fst (on_raw json_loads final_stop raw)
  = match t with
    | [] => []
    | _ => [content_delta (PStr t)]
    end.
Proof.
  unfold fragment_of, event_of, on_raw, payload_of.
  destruct (startswith raw (lit "data:")); simpl; [|discriminate].
  destruct (str_eqb _ _); simpl; [discriminate|].
  destruct (json_loads _) as [data|]; [|discriminate].
  destruct data as [| | | | | |top]; try discriminate.
  unfold choice0, first_choice. cbn [py_get].
  destruct (dict_get_cases top (lit "choices") PNone (PList [PDict []]))
    as [[-> _]|E]; [discriminate|].
  rewrite <- E.
  destruct (dict_get top (lit "choices") PNone) as [| | | | |l|];
    try discriminate.
  destruct l as [|ch l]; [discriminate|].
  destruct ch as [| | | | | |c]; try discriminate.
  cbn [py_item0]. unfold write_delta. cbn [py_get].
  destruct (dict_get_cases c (lit "delta") PNone (PDict []))
    as [[-> _]|Ed]; [discriminate|].
  rewrite <- Ed.
  destruct (dict_get c (lit "delta") PNone) as [| | | | | |d];
    try discriminate.
  destruct d as [|kv d]; [discriminate|].
  cbn [truthy py_get].
  destruct (dict_get (kv :: d) (lit "content") PNone) as [| | | |t'| |];
    try discriminate.
  intros [= ->]. destruct t; reflexivity.
Qed.

(** A finishing line never lets the loop go on. *)
Lemma on_raw_finishing final_stop raw :
  finishing json_loads raw = true ->
  snd (on_raw json_loads final_stop raw) <> Continue.
Proof.
  unfold finishing, finish_reason_of, finish_of, is_done, event_of, on_raw,
    payload_of.
  destruct (startswith raw (lit "data:")); simpl; [|discriminate].
  destruct (str_eqb _ _); simpl; [discriminate|].
  destruct (json_loads _) as [data|]; [|discriminate].
  destruct data as [| | | | | |top]; try discriminate.
  unfold choice0, first_choice. cbn [py_get].
  destruct (dict_get_cases top (lit "choices") PNone (PList [PDict []]))
    as [[-> _]|E]; [discriminate|].
  rewrite <- E.
  destruct (dict_get top (lit "choices") PNone) as [| | | | |l|];
    try discriminate.
  destruct l as [|ch l]; [discriminate|].
  destruct ch as [| | | | | |c]; try discriminate.
  cbn [py_item0].
  destruct (write_delta (PDict c)); [|discriminate].
  unfold check_finish. cbn [py_get snd].
  destruct (dict_get c (lit "finish_reason") PNone) as [| | | |s| |];
    try discriminate.
  destruct s; discriminate.
Qed.

Lemma until_finish_none raws :
  existsb (finishing json_loads) raws = false ->
  until_finish json_loads raws = raws
  /\ first_reason json_loads raws = None.
Proof.
  induction raws as [|raw raws IH]; [now split|].
  cbn [existsb until_finish first_reason]. intros H.
  apply orb_false_elim in H. destruct H as [H1 H2].
  rewrite H1. unfold finishing in H1.
  apply orb_false_elim in H1. destruct H1 as [-> H1].
  destruct (finish_reason_of json_loads raw); [discriminate|].
  destruct (IH H2) as [-> ->]. now split.
Qed.

(** The line loop when the lines up to the first finishing line are
    well-formed: the texts of those lines, and the reason the finishing
    line gives. *)
Lemma for_raw_shaped final_stop raws :
  forallb (line_ok json_loads) (until_finish json_loads raws) = true ->
  for_raw json_loads final_stop raws
  = (map (fun t => content_delta (PStr t))
         (shown_fragments json_loads (until_finish json_loads raws)),
     if existsb (finishing json_loads) raws
     then Break match first_reason json_loads raws with
                | Some s => stop_reason_of s
                | None => final_stop
                end
     else Continue).
Proof.
  induction raws as [|raw raws IH]; [reflexivity|].
  cbn [for_raw existsb until_finish first_reason]. intros H.
  assert (H1 : line_ok json_loads raw = true).
  { destruct (finishing json_loads raw); cbn [forallb] in H;
      apply andb_prop in H; tauto. }
  rewrite (on_raw_shaped final_stop raw H1).
  unfold finishing at 1 2. unfold finishing at 1 in H.
  destruct (is_done raw).
  - cbn [orb]. unfold shown_fragments. cbn [flat_map].
    now rewrite app_nil_r.
  - cbn [orb] in *.
    destruct (finish_reason_of json_loads raw) as [s|].
    + unfold shown_fragments. cbn [flat_map]. now rewrite app_nil_r.
    + cbn [forallb] in H. apply andb_prop in H. destruct H as [_ H2].
      rewrite (IH H2). unfold shown_fragments. cbn [flat_map].
      now rewrite map_app.
Qed.

(** The whole function on a body whose lines are well-formed up to the
    first finishing line. *)
Lemma shaped_stream text model now_ms chunks :
  forallb (line_ok json_loads)
          (until_finish json_loads (frame_lines chunks)) = true ->
  handle_stream_response json_loads 200 text model now_ms (map Recv chunks)
  = (opening now_ms model
     ++ map (fun t => content_delta (PStr t))
            (shown_fragments json_loads
               (until_finish json_loads (frame_lines chunks)))
     ++ closing match first_reason json_loads (frame_lines chunks) with
                | Some s => stop_reason_of s
                | None => lit "end_turn"
                end, Returned).
Proof.
  intros H.
  unfold handle_stream_response. cbn [Z.eqb Pos.eqb negb].
  rewrite <- (app_nil_r (map Recv chunks)), for_chunk_lines.
  rewrite (for_raw_shaped (lit "end_turn") _ H).
  destruct (existsb (finishing json_loads) (frame_lines chunks)) eqn:E;
    [reflexivity|].
  destruct (until_finish_none _ E) as [_ ->].
  cbn [for_chunk]. now rewrite app_nil_r.
Qed.

(** What follows a finishing line is not looked at. *)
Lemma for_raw_finishing final_stop a fin b :
  finishing json_loads fin = true ->
  for_raw json_loads final_stop (a ++ fin :: b)
  = for_raw json_loads final_stop (a ++ [fin])
  /\ snd (for_raw json_loads final_stop (a ++ [fin])) <> Continue.
Proof.
  intros H. rewrite !for_raw_app.
  destruct (for_raw json_loads final_stop a) as [w c].
  pose proof (on_raw_finishing final_stop fin H) as Hc.
  destruct c; try (split; [reflexivity | discriminate]).
  cbn [for_raw].
  destruct (on_raw json_loads final_stop fin) as [w1 c1].
  cbn [snd] in Hc.
  destruct c1; [congruence| |]; split; try reflexivity; discriminate.
Qed.


(** The chunk loop stops at a finishing line: the rest of its chunk and
    the rest of the body are not looked at. *)
Lemma for_chunk_finishing final_stop pre chunk post l1 fin l2 :
  finishing json_loads fin = true ->
  chunk_lines chunk = l1 ++ fin :: l2 ->
  for_chunk json_loads final_stop (map Recv pre ++ Recv chunk :: post)
  = match for_raw json_loads final_stop (frame_lines pre ++ l1 ++ [fin]) with
    | (w, Continue) => (w, Ok final_stop)
    | (w, Break f) => (w, Ok f)
    | (w, Raise e) => (w, Err e)
    end.
Proof.
  intros Hfin Hchunk.
  change (Recv chunk :: post) with (map Recv [chunk] ++ post).
  rewrite app_assoc, <- map_app, for_chunk_lines.
  unfold frame_lines. rewrite flat_map_app. cbn [flat_map].
  rewrite app_nil_r, Hchunk. fold (frame_lines pre).
  rewrite app_assoc.
  destruct (for_raw_finishing final_stop (frame_lines pre ++ l1) fin l2 Hfin)
    as [-> Hc].
  rewrite <- app_assoc in *.
  destruct (for_raw json_loads final_stop (frame_lines pre ++ l1 ++ [fin]))
    as [w c].
  destruct c; [now contradiction Hc | reflexivity | reflexivity].
Qed.

End Shaped.

(** ** After the first finishing condition *)

(** C9: a finishing line is the [[DONE]] sentinel or a payload whose
    first choice has a finish reason.  Whatever follows a finishing
    line changes nothing: two bodies that agree up to that line, in the
    earlier chunks [pre] and in the lines [l1] of its own chunk, give
    the same events and the same end, whatever the later lines [l2],
    [l2'] of the chunk and whatever the transport still delivers
    ([post], [post'], a failure of the connection included).  When the
    lines up to the finishing line are well-formed, the deltas written
    are the texts of those lines and no others, each line counted up to
    the first finishing one, and the closing sequence follows. *)
Theorem C9_nothing_after_first_finish
  (json_loads : str -> option pyval)
  (status : Z) (text : str) (model : pyval) (now_ms : Z)
  (pre : list bytes) (chunk chunk' : bytes) (post post' : list recv)
  (l1 l2 l2' : list str) (fin : str) :
  finishing json_loads fin = true ->
  chunk_lines chunk = l1 ++ fin :: l2 ->
  chunk_lines chunk' = l1 ++ fin :: l2' ->
  handle_stream_response json_loads status text model now_ms
    (map Recv pre ++ Recv chunk :: post)
  = handle_stream_response json_loads status text model now_ms
      (map Recv pre ++ Recv chunk' :: post')
  /\ (forallb (line_ok json_loads)
              (until_finish json_loads (frame_lines pre ++ l1 ++ [fin]))
      = true ->
      exists r,
        handle_stream_response json_loads 200 text model now_ms
          (map Recv pre ++ Recv chunk :: post)
        = (opening now_ms model
           ++ map (fun t =>
                     Frame (lit "content_block_delta")
                       (Dumps (obj [("type", PStr (lit "content_block_delta"));
                                    ("index", PInt 0);
                                    ("delta",
                                     obj [("type", PStr (lit "text_delta"));
                                          ("text", PStr t)])])))
                (shown_fragments json_loads
                   (until_finish json_loads (frame_lines pre ++ l1 ++ [fin])))
           ++ closing r, Returned)).
Proof.
  intros Hfin Hc Hc'. split.
  - unfold handle_stream_response.
    destruct (negb (status =? 200)%Z); [reflexivity|].
    rewrite (for_chunk_finishing json_loads (lit "end_turn") pre chunk post
               l1 fin l2 Hfin Hc).
    rewrite (for_chunk_finishing json_loads (lit "end_turn") pre chunk' post'
               l1 fin l2' Hfin Hc').
    reflexivity.
  - intros Hok.
    unfold handle_stream_response. cbn [Z.eqb Pos.eqb negb].
    rewrite (for_chunk_finishing json_loads (lit "end_turn") pre chunk post
               l1 fin l2 Hfin Hc).
    rewrite (for_raw_shaped json_loads (lit "end_turn") _ Hok).
    destruct (existsb _ _); eexists; reflexivity.
Qed.

Lemma C9_nothing_after_first_finish_witness :
  let hi := ln "data: {'choices': [{'delta': {'content': 'Hi'}}]}" in
  let done := ln "data: [DONE]" in
  let fin := ln "data: {'choices': [{'finish_reason': 'length'}]}" in
  let late := ln "data: {'choices': [{'delta': {'content': 'late'}}]}" in
  (finishing Json.loads (decode_ignore (dq "data: [DONE]")) = true
   /\ handle_stream_response Json.loads 200 [] PNone 1
        (map Recv [hi] ++ Recv (hi ++ done ++ late) :: [Recv late; Broken])
      = handle_stream_response Json.loads 200 [] PNone 1
          (map Recv [hi] ++ Recv (hi ++ done) :: [])
   /\ exists r,
        handle_stream_response Json.loads 200 [] PNone 1
          (map Recv [hi] ++ Recv (hi ++ done ++ late) :: [Recv late; Broken])
        = (opening 1 PNone
           ++ map content_delta [PStr (lit "Hi"); PStr (lit "Hi")]
           ++ closing r, Returned))
  /\ (finishing Json.loads
        (decode_ignore (dq "data: {'choices': [{'finish_reason': 'length'}]}"))
      = true
      /\ handle_stream_response Json.loads 200 [] PNone 1
           (map Recv [hi] ++ Recv (fin ++ late) :: [Recv late; Broken])
         = handle_stream_response Json.loads 200 [] PNone 1
             (map Recv [hi] ++ Recv fin :: [])).
Proof.
  intros hi done fin late. split.
  - split; [reflexivity|].
    destruct (@C9_nothing_after_first_finish Json.loads 200%Z [] PNone 1%Z
                [hi] (hi ++ done ++ late) (hi ++ done) [Recv late; Broken] []
                (chunk_lines hi) (chunk_lines late) []
                (decode_ignore (dq "data: [DONE]")))
      as [H1 H2]; try reflexivity.
    split; [exact H1|]. exact (H2 eq_refl).
  - split; [reflexivity|].
    apply (@C9_nothing_after_first_finish Json.loads 200%Z [] PNone 1%Z
             [hi] (fin ++ late) fin [Recv late; Broken] []
             [] (chunk_lines late) []
             (decode_ignore
                (dq "data: {'choices': [{'finish_reason': 'length'}]}")));
      reflexivity.
Defined.

(** ** The finish reason *)

(** C7: what the client is told.  On a body whose lines are
    well-formed up to the first finishing line (payloads of the
    protocol's shape, the sentinel, lines that are no event) the
    function returns, and the output ends with [content_block_stop],
    one [message_delta] and [message_stop]; the [stop_reason] of that
    [message_delta] is [r], where for the finish reason [s] of the
    first finishing line [stop] gives [end_turn], [length] gives
    [max_tokens], [tool_calls] and [function_call] give [tool_use] and
    every other string gives [end_turn]; when the first finishing line
    is the sentinel, or the body ends without one, [r] is [end_turn].
    The events before the closing three are [content_block_delta]
    events, so this [message_delta] is the only one. *)
Theorem C7_finish_reason_mapping
  (json_loads : str -> option pyval)
  (text : str) (model : pyval) (now_ms : Z) (chunks : list bytes) :
  forallb (line_ok json_loads)
          (until_finish json_loads (frame_lines chunks)) = true ->
  exists deltas r,
    handle_stream_response json_loads 200 text model now_ms (map Recv chunks)
    = (opening now_ms model ++ deltas
       ++ [Frame (lit "content_block_stop")
             (Dumps (obj [("type", PStr (lit "content_block_stop"));
                          ("index", PInt 0)]));
           Frame (lit "message_delta")
             (Dumps (obj [("type", PStr (lit "message_delta"));
                          ("delta", obj [("stop_reason", PStr r);
                                         ("stop_sequence", PNone)]);
                          ("usage", obj [("output_tokens", PInt 0)])]));
           Frame (lit "message_stop") (Verbatim (lit "{}"))],
       Returned)
    /\ Forall (fun f => named "content_block_delta" f = true) deltas
    /\ match first_reason json_loads (frame_lines chunks) with
       | Some s =>
           (s = lit "stop" -> r = lit "end_turn")
           /\ (s = lit "length" -> r = lit "max_tokens")
           /\ (s = lit "tool_calls" -> r = lit "tool_use")
           /\ (s = lit "function_call" -> r = lit "tool_use")
           /\ (s <> lit "stop" -> s <> lit "length" ->
               s <> lit "tool_calls" -> s <> lit "function_call" ->
               r = lit "end_turn")
       | None => r = lit "end_turn"
       end.
Proof.
  intros H.
  exists (map (fun t => content_delta (PStr t))
            (shown_fragments json_loads
               (until_finish json_loads (frame_lines chunks)))).
  exists (match first_reason json_loads (frame_lines chunks) with
          | Some s => stop_reason_of s
          | None => lit "end_turn"
          end).
  split; [exact (shaped_stream json_loads text model now_ms chunks H)|].
  split.
  - apply Forall_forall. intros f Hf. apply in_map_iff in Hf.
    destruct Hf as [t [<- _]]. reflexivity.
  - destruct (first_reason json_loads (frame_lines chunks)) as [s|];
      [|reflexivity].
    repeat split; try (intros ->; reflexivity).
    intros H1 H2 H3 H4. unfold stop_reason_of.
    repeat match goal with
           | |- context [str_eqb ?a ?b] =>
               let E := fresh in
               destruct (str_eqb a b) eqn:E;
               [apply str_eqb_eq in E; congruence|]
           end.
    reflexivity.
Qed.

Lemma C7_finish_reason_mapping_witness :
  let chunks :=
    [ln "data: {'choices': [{'delta': {'content': 'Hi'}}]}";
     ln "data: {'choices': [{'delta': {}, 'finish_reason': 'length'}]}";
     ln "data: [DONE]"] in
  forallb (line_ok Json.loads)
          (until_finish Json.loads (frame_lines chunks)) = true
  /\ first_reason Json.loads (frame_lines chunks) = Some (lit "length")
  /\ handle_stream_response Json.loads 200 [] PNone 1 (map Recv chunks)
     = (opening 1 PNone ++ [content_delta (PStr (lit "Hi"))]
        ++ [content_stop;
            Frame (lit "message_delta")
              (Dumps (obj [("type", PStr (lit "message_delta"));
                           ("delta", obj [("stop_reason",
                                           PStr (lit "max_tokens"));
                                          ("stop_sequence", PNone)]);
                           ("usage", obj [("output_tokens", PInt 0)])]));
            message_stop], Returned)
  /\ exists deltas r,
       handle_stream_response Json.loads 200 [] PNone 1 (map Recv chunks)
       = (opening 1 PNone ++ deltas
          ++ [Frame (lit "content_block_stop")
                (Dumps (obj [("type", PStr (lit "content_block_stop"));
                             ("index", PInt 0)]));
              Frame (lit "message_delta")
                (Dumps (obj [("type", PStr (lit "message_delta"));
                             ("delta", obj [("stop_reason", PStr r);
                                            ("stop_sequence", PNone)]);
                             ("usage", obj [("output_tokens", PInt 0)])]));
              Frame (lit "message_stop") (Verbatim (lit "{}"))],
          Returned)
       /\ Forall (fun f => named "content_block_delta" f = true) deltas
       /\ match first_reason Json.loads (frame_lines chunks) with
          | Some s =>
              (s = lit "stop" -> r = lit "end_turn")
              /\ (s = lit "length" -> r = lit "max_tokens")
              /\ (s = lit "tool_calls" -> r = lit "tool_use")
              /\ (s = lit "function_call" -> r = lit "tool_use")
              /\ (s <> lit "stop" -> s <> lit "length" ->
                  s <> lit "tool_calls" -> s <> lit "function_call" ->
                  r = lit "end_turn")
          | None => r = lit "end_turn"
          end.
Proof.
  intros chunks.
  split; [reflexivity|]. split; [reflexivity|]. split; [reflexivity|].
  apply (@C7_finish_reason_mapping Json.loads [] PNone 1%Z chunks).
  reflexivity.
Defined.

(** ** A backend that refuses the request *)

(** C8: when the status of the backend's answer is not 200, the output
    is the single [error] event with the text of the answer's body;
    none of the lifecycle and closing events is written. *)
Theorem C8_upstream_error_single_event
  (json_loads : str -> option pyval)
  (status : Z) (text : str) (model : pyval) (now_ms : Z)
  (stream : list recv) :
  status <> 200%Z ->
  let out :=
    [Frame (lit "error")
       (Dumps (obj [("type", PStr (lit "error"));
                    ("error", obj [("message", PStr text)])]))] in
  handle_stream_response json_loads status text model now_ms stream
  = (out, Returned)
  /\ Forall (fun name => count_named name out = 0%nat)
       ["message_start"; "content_block_start"; "ping";
        "content_block_delta"; "content_block_stop"; "message_delta";
        "message_stop"].
Proof.
  intros Hs out. split.
  - unfold handle_stream_response.
    destruct (Z.eqb_spec status 200); [contradiction | reflexivity].
  - repeat constructor.
Qed.

Lemma C8_upstream_error_single_event_witness :
  let text := lit "upstream says no" in
  let out :=
    [Frame (lit "error")
       (Dumps (obj [("type", PStr (lit "error"));
                    ("error", obj [("message", PStr text)])]))] in
  503%Z <> 200%Z /\
  handle_stream_response Json.loads 503 text PNone 1
    [Recv (ln "data: {'choices': [{'delta': {'content': 'Hi'}}]}")]
  = (out, Returned)
  /\ Forall (fun name => count_named name out = 0%nat)
       ["message_start"; "content_block_start"; "ping";
        "content_block_delta"; "content_block_stop"; "message_delta";
        "message_stop"].
Proof.
  intros text out. split; [discriminate|].
  apply (@C8_upstream_error_single_event Json.loads 503%Z text PNone 1%Z).
  discriminate.
Defined.

(** ** Text fragments *)

(** C6, as stated, does not hold for the empty fragment: the delta is
    written under [if content := delta.get("content")], and the empty
    string is false.  A payload whose fragment is empty writes no
    event at all. *)
Lemma C6_empty_fragment_writes_nothing :
  let raw :=
    decode_ignore (dq "data: {'choices': [{'delta': {'content': ''}}]}") in
  fragment_of Json.loads raw = Some []
  /\ on_raw Json.loads (lit "end_turn") raw = ([], Continue)
  /\ handle_stream_response Json.loads 200 [] PNone 1
       [Recv (ln "data: {'choices': [{'delta': {'content': ''}}]}")]
     = (opening 1 PNone ++ closing (lit "end_turn"), Returned).
Proof. repeat split; reflexivity. Qed.

(** C6, amended.  On a body whose lines are well-formed up to the
    first finishing line (payloads of the protocol's shape, the
    sentinel, lines that are no event) the output holds, between the
    opening and the closing events, exactly one
    [content_block_delta] at index 0 for each payload that carries a
    fragment that is not empty, with exactly that fragment as its text
    and in the order of arrival, for the lines up to and including the
    first finishing line; a payload without a fragment or with the
    empty fragment contributes no event.  For a single line nothing is
    asked of the rest of the payload: whenever its first choice carries
    a fragment, the line writes the one delta with that text when the
    fragment is not empty, and nothing when it is. *)
Theorem C6_nonempty_fragments_in_order
  (json_loads : str -> option pyval)
  (text : str) (model : pyval) (now_ms : Z) (chunks : list bytes) :
  forallb (line_ok json_loads)
          (until_finish json_loads (frame_lines chunks)) = true ->
  (exists r,
     handle_stream_response json_loads 200 text model now_ms (map Recv chunks)
     = (opening now_ms model
        ++ map (fun t =>
                  Frame (lit "content_block_delta")
                    (Dumps (obj [("type", PStr (lit "content_block_delta"));
                                 ("index", PInt 0);
                                 ("delta",
                                  obj [("type", PStr (lit "text_delta"));
                                       ("text", PStr t)])])))
             (shown_fragments json_loads
                (until_finish json_loads (frame_lines chunks)))
        ++ closing r, Returned))
  /\ (forall final_stop raw t,
        fragment_of json_loads raw = Some t ->
        fst (on_raw json_loads final_stop raw)
        = match t with
          | [] => []
          | _ =>
              [Frame (lit "content_block_delta")
                 (Dumps (obj [("type", PStr (lit "content_block_delta"));
                              ("index", PInt 0);
                              ("delta",
                               obj [("type", PStr (lit "text_delta"));
                                    ("text", PStr t)])]))]
          end).
Proof.
  intros H. split.
  - eexists. exact (shaped_stream json_loads text model now_ms chunks H).
  - intros final_stop raw t Ht.
    exact (on_raw_fragment json_loads final_stop raw Ht).
Qed.

Lemma C6_nonempty_fragments_in_order_witness :
  let chunks :=
    [ln "data: {'choices': [{'delta': {'role': 'assistant'}}]}";
     ln "data: {'choices': [{'delta': {'content': 'Hel'}}]}" ++ ln "";
     ln ": keep-alive";
     ln "data: {'choices': [{'delta': {'content': ''}}]}";
     ln "data: {'choices': [{'delta': {'content': ' lo '}}]}";
     ln "data: {'choices': [{'delta': {'content': '!'}, 'finish_reason': 'stop'}]}";
     ln "data: {'choices': [{'delta': {'content': 'late'}}]}";
     ln "data: []";
     ln "data: [DONE]"] in
  forallb (line_ok Json.loads)
          (until_finish Json.loads (frame_lines chunks)) = true
  /\ shown_fragments Json.loads (until_finish Json.loads (frame_lines chunks))
     = [lit "Hel"; lit " lo "; lit "!"]
  /\ (exists r,
        handle_stream_response Json.loads 200 [] PNone 1 (map Recv chunks)
        = (opening 1 PNone
           ++ map (fun t => content_delta (PStr t))
                (shown_fragments Json.loads
                   (until_finish Json.loads (frame_lines chunks)))
           ++ closing r, Returned)).
Proof.
  intros chunks. split; [reflexivity|]. split; [reflexivity|].
  apply (@C6_nonempty_fragments_in_order Json.loads [] PNone 1%Z chunks).
  reflexivity.
Defined.

(** ** Message identifiers *)

Lemma lit_inj a b : lit a = lit b -> a = b.
Proof.
  unfold lit. intros H.
  rewrite <- (string_of_list_ascii_of_string a),
          <- (string_of_list_ascii_of_string b).
  f_equal.
  revert H. generalize (list_ascii_of_string a) (list_ascii_of_string b).
  intros l. induction l as [|x l IH]; intros [|y l']; simpl;
    try discriminate; [reflexivity|].
  intros [= Hxy Hl]. f_equal; [|now apply IH].
  now rewrite <- (ascii_N_embedding x), <- (ascii_N_embedding y), Hxy.
Qed.

Lemma to_int_proper z :
  Z.to_int z <> Decimal.Pos Decimal.Nil /\
  Z.to_int z <> Decimal.Neg Decimal.Nil.
Proof.
  destruct z as [|p|p]; simpl; split; try discriminate;
    intros [= H]; now apply (DecimalPos.Unsigned.to_uint_nonnil p).
Qed.

(** The decimal rendering of an integer determines it. *)
Lemma str_of_int_inj a b : str_of_int a = str_of_int b -> a = b.
Proof.
  unfold str_of_int. intros H. apply lit_inj in H.
  destruct (to_int_proper a) as [Ha1 Ha2].
  destruct (to_int_proper b) as [Hb1 Hb2].
  pose proof (NilZero.isi _ Ha1 Ha2) as Ia.
  pose proof (NilZero.isi _ Hb1 Hb2) as Ib.
  rewrite H, Ib in Ia. injection Ia as Ia.
  rewrite <- (DecimalZ.of_to a), <- (DecimalZ.of_to b). now rewrite Ia.
Qed.

Lemma exchange_id_started json_loads text model now_ms stream :
  exchange_id
    (fst (handle_stream_response json_loads 200 text model now_ms stream))
  = Some (PStr (message_id now_ms)).
Proof.
  unfold handle_stream_response. cbn [Z.eqb Pos.eqb negb].
  now destruct (for_chunk json_loads (lit "end_turn") stream) as [w [f|e]].
Qed.

(** C10, as stated, does not hold: the identifier is built from the
    clock alone.  Two different exchanges that read the same
    millisecond show the same identifier. *)
Lemma C10_same_millisecond_same_identifier :
  let first :=
    handle_stream_response Json.loads 200 [] (PStr (lit "model-a"))
      1700000000123
      [Recv (ln "data: {'choices': [{'delta': {'content': 'Hi'}}]}")] in
  let second :=
    handle_stream_response Json.loads 200 [] (PStr (lit "model-b"))
      1700000000123 [Recv (ln "data: [DONE]")] in
  first <> second
  /\ exchange_id (fst first) = Some (PStr (lit "msg_1700000000123"))
  /\ exchange_id (fst second) = Some (PStr (lit "msg_1700000000123")).
Proof.
  repeat split; try reflexivity. vm_compute. discriminate.
Qed.

(** C10, amended: the identifier in [message_start] is [msg_] followed
    by the decimal digits of the clock reading in milliseconds; the
    identifiers of two exchanges differ exactly when their clock
    readings differ. *)
Theorem C10_identifier_follows_clock
  (json_loads : str -> option pyval)
  (text1 text2 : str) (model1 model2 : pyval) (now1 now2 : Z)
  (stream1 stream2 : list recv) :
  let id1 := exchange_id (fst (handle_stream_response json_loads 200
                                 text1 model1 now1 stream1)) in
  let id2 := exchange_id (fst (handle_stream_response json_loads 200
                                 text2 model2 now2 stream2)) in
  id1 = Some (PStr (lit "msg_" ++ str_of_int now1))
  /\ (id1 <> id2 <-> now1 <> now2).
Proof.
  intros id1 id2. subst id1 id2. rewrite !exchange_id_started.
  split; [reflexivity|]. split.
  - intros H E. apply H. now rewrite E.
  - intros H E. apply H.
    assert (Hid : message_id now1 = message_id now2) by congruence.
    unfold message_id in Hid. apply app_inv_head in Hid.
    now apply str_of_int_inj.
Qed.

(** ** Payloads without the expected structure *)

(** Text that [json.loads] rejects is passed over. *)
Lemma unparsable_payload_is_skipped json_loads final_stop raw :
  startswith raw (lit "data:") = true ->
  payload_of raw <> lit "[DONE]" ->
  json_loads (payload_of raw) = None ->
  on_raw json_loads final_stop raw = ([], Continue).
Proof.
  intros Hp Hd Hj. unfold on_raw. fold (payload_of raw).
  rewrite Hp, Hj. simpl.
  destruct (str_eqb (payload_of raw) (lit "[DONE]")) eqn:E;
    [apply str_eqb_eq in E; contradiction | reflexivity].
Qed.

(** Scenario D: a line that is not JSON between two deltas. *)
Example malformed_line_between_deltas :
  handle_stream_response Json.loads 200 [] PNone 1
    [Recv (ln "data: {'choices': [{'delta': {'content': 'a'}}]}");
     Recv (ln "data: {not json");
     Recv (ln "data: {'choices': [{'delta': {'content': 'b'}}]}")]
  = (opening 1 PNone
     ++ [content_delta (PStr (lit "a")); content_delta (PStr (lit "b"))]
     ++ closing (lit "end_turn"), Returned).
Proof. reflexivity. Qed.

(** C5 on the code: only [json.loads] stands in the [try] block.  A
    payload that is JSON but has an empty [choices] list, or is no
    object, raises at [data.get("choices", [{}])[0]]; the exception
    leaves the function, the delta that follows is never written and
    no closing event is written. *)
Lemma C5_json_without_choices_raises :
  handle_stream_response Json.loads 200 [] PNone 1
    [Recv (ln "data: {'choices': [{'delta': {'content': 'a'}}]}");
     Recv (ln "data: {'choices': []}");
     Recv (ln "data: {'choices': [{'delta': {'content': 'b'}}]}")]
  = (opening 1 PNone ++ [content_delta (PStr (lit "a"))], Raised IndexError)
  /\
  handle_stream_response Json.loads 200 [] PNone 1
    [Recv (ln "data: {'choices': [{'delta': {'content': 'a'}}]}");
     Recv (ln "data: []");
     Recv (ln "data: {'choices': [{'delta': {'content': 'b'}}]}")]
  = (opening 1 PNone ++ [content_delta (PStr (lit "a"))],
     Raised AttributeError).
Proof. split; reflexivity. Qed.


(** * Further properties of the streaming path *)
Section DataLines.

Variable json_loads : str -> option pyval.

Lemma on_raw_not_data final_stop raw :
  is_data raw = false -> on_raw json_loads final_stop raw = ([], Continue).
Proof. unfold on_raw, is_data. intros ->. reflexivity. Qed.

Lemma on_raw_same_payload final_stop r1 r2 :
  is_data r1 = true -> is_data r2 = true ->
  payload_of r1 = payload_of r2 ->
  on_raw json_loads final_stop r1 = on_raw json_loads final_stop r2.
Proof.
  unfold on_raw, is_data, payload_of. intros -> -> ->. reflexivity.
Qed.

Lemma for_raw_data_lines final_stop raws :
  for_raw json_loads final_stop raws
  = for_raw json_loads final_stop (filter is_data raws).
Proof.
  induction raws as [|raw raws IH]; [reflexivity|].
  cbn [filter]. destruct (is_data raw) eqn:E.
  - cbn [for_raw]. now rewrite IH.
  - cbn [for_raw]. rewrite (on_raw_not_data final_stop raw E).
    rewrite IH.
    now destruct (for_raw json_loads final_stop (filter is_data raws)).
Qed.

Lemma for_raw_same_payloads final_stop a :
  forall b,
    forallb is_data a = true -> forallb is_data b = true ->
    map payload_of a = map payload_of b ->
    for_raw json_loads final_stop a = for_raw json_loads final_stop b.
Proof.
  induction a as [|r1 a IH]; intros [|r2 b] Ha Hb Hm;
    try discriminate; [reflexivity|].
  cbn [forallb] in Ha, Hb.
  apply andb_prop in Ha. destruct Ha as [Ha1 Ha2].
  apply andb_prop in Hb. destruct Hb as [Hb1 Hb2].
  injection Hm as Hp Hm.
  cbn [for_raw].
  rewrite (on_raw_same_payload final_stop r1 r2 Ha1 Hb1 Hp).
  now rewrite (IH b Ha2 Hb2 Hm).
Qed.

Lemma forallb_filter_same {A : Type} (f : A -> bool) l :
  forallb f (filter f l) = true.
Proof.
  induction l as [|x l IH]; [reflexivity|].
  simpl. destruct (f x) eqn:E; [simpl; now rewrite E | exact IH].
Qed.

End DataLines.

(** X1: the events depend on the body of the backend only through the
    payloads of its [data:] lines, taken in order.  Empty chunks, blank
    lines, comment lines, [event:] lines and the white space around a
    payload make no difference. *)
Theorem stream_depends_on_data_payloads
  (json_loads : str -> option pyval)
  (status : Z) (text : str) (model : pyval) (now_ms : Z)
  (a b : list bytes) :
  data_payloads (frame_lines a) = data_payloads (frame_lines b) ->
  handle_stream_response json_loads status text model now_ms (map Recv a)
  = handle_stream_response json_loads status text model now_ms (map Recv b).
Proof.
  unfold data_payloads. intros H.
  unfold handle_stream_response.
  destruct (negb (status =? 200)%Z); [reflexivity|].
  rewrite <- (app_nil_r (map Recv a)), <- (app_nil_r (map Recv b)).
  rewrite !for_chunk_lines.
  rewrite (for_raw_data_lines json_loads _ (frame_lines a)).
  rewrite (for_raw_data_lines json_loads _ (frame_lines b)).
  now rewrite (@for_raw_same_payloads json_loads (lit "end_turn")
                 (filter is_data (frame_lines a))
                 (filter is_data (frame_lines b))
                 (forallb_filter_same _ _) (forallb_filter_same _ _) H).
Qed.

Lemma stream_depends_on_data_payloads_witness :
  let a := [ln ": keep-alive"; [];
            ln "event: delta" ++
            ln "data:   {'choices': [{'delta': {'content': 'Hi'}}]}  " ++
            ln ""] in
  let b := [ln "data:{'choices': [{'delta': {'content': 'Hi'}}]}"] in
  data_payloads (frame_lines a) = data_payloads (frame_lines b) /\
  handle_stream_response Json.loads 200 [] PNone 1 (map Recv a)
  = handle_stream_response Json.loads 200 [] PNone 1 (map Recv b).
Proof.
  intros a b. split; [reflexivity|].
  apply (@stream_depends_on_data_payloads Json.loads 200%Z [] PNone 1%Z a b).
  reflexivity.
Defined.

Section FragmentAndFinish.

Variable json_loads : str -> option pyval.

Lemma on_raw_fragment_finish final_stop raw t s :
  fragment_of json_loads raw = Some t -> t <> [] ->
  finish_of json_loads raw = Some (PStr s) -> s <> [] ->
  on_raw json_loads final_stop raw
  = ([content_delta (PStr t)], Break (stop_reason_of s)).
Proof.
  unfold fragment_of, finish_of, event_of, on_raw, payload_of.
  destruct (startswith raw (lit "data:")); simpl; [|discriminate].
  destruct (str_eqb _ _); simpl; [discriminate|].
  destruct (json_loads _) as [data|]; [|discriminate].
  destruct data as [| | | | | |top]; try discriminate.
  unfold choice0, first_choice. cbn [py_get].
  destruct (dict_get_cases top (lit "choices") PNone (PList [PDict []]))
    as [[-> _]|E]; [discriminate|].
  rewrite <- E.
  destruct (dict_get top (lit "choices") PNone) as [| | | | |l|];
    try discriminate.
  destruct l as [|ch l]; [discriminate|].
  destruct ch as [| | | | | |c]; try discriminate.
  cbn [py_item0]. unfold write_delta, check_finish. cbn [py_get].
  destruct (dict_get_cases c (lit "delta") PNone (PDict []))
    as [[-> _]|Ed]; [discriminate|].
  rewrite <- Ed.
  destruct (dict_get c (lit "delta") PNone) as [| | | | | |d];
    try discriminate.
  destruct d as [|kv d]; [discriminate|].
  cbn [truthy py_get].
  destruct (dict_get (kv :: d) (lit "content") PNone) as [| | | |t'| |];
    try discriminate.
  intros [= ->] Ht.
  destruct t as [|x t]; [congruence|]. cbn [truthy].
  destruct (dict_get c (lit "finish_reason") PNone) as [| | | |s'| |];
    try discriminate.
  intros [= ->] Hs.
  destruct s as [|y s]; [congruence|]. reflexivity.
Qed.

End FragmentAndFinish.

(** X2: a payload that carries a fragment and a finish reason at once.
    When the lines before it are well-formed and none of them is a
    finishing line, its fragment is written, after the texts of the
    earlier lines, before the stream is closed; the closing
    [message_delta] carries the reason the table gives for its finish
    reason, and the lines after it are not looked at. *)
Theorem fragment_with_finish_reason_is_written
  (json_loads : str -> option pyval)
  (text : str) (model : pyval) (now_ms : Z) (chunks : list bytes)
  (pre post : list str) (last t s : str) :
  frame_lines chunks = pre ++ last :: post ->
  forallb (line_ok json_loads) pre = true ->
  existsb (finishing json_loads) pre = false ->
  fragment_of json_loads last = Some t -> t <> [] ->
  finish_of json_loads last = Some (PStr s) -> s <> [] ->
  handle_stream_response json_loads 200 text model now_ms (map Recv chunks)
  = (opening now_ms model
     ++ map (fun t =>
               Frame (lit "content_block_delta")
                 (Dumps (obj [("type", PStr (lit "content_block_delta"));
                              ("index", PInt 0);
                              ("delta", obj [("type", PStr (lit "text_delta"));
                                             ("text", PStr t)])])))
            (shown_fragments json_loads pre ++ [t])
     ++ [Frame (lit "content_block_stop")
           (Dumps (obj [("type", PStr (lit "content_block_stop"));
                        ("index", PInt 0)]));
         Frame (lit "message_delta")
           (Dumps (obj [("type", PStr (lit "message_delta"));
                        ("delta", obj [("stop_reason",
                                        PStr (stop_reason_of s));
                                       ("stop_sequence", PNone)]);
                        ("usage", obj [("output_tokens", PInt 0)])]));
         Frame (lit "message_stop") (Verbatim (lit "{}"))], Returned).
Proof.
  intros Hl Hpre Hnone Ht Htn Hs Hsn.
  unfold handle_stream_response. cbn [Z.eqb Pos.eqb negb].
  rewrite <- (app_nil_r (map Recv chunks)), for_chunk_lines, Hl.
  rewrite for_raw_app.
  destruct (until_finish_none json_loads pre Hnone) as [Hu _].
  rewrite (for_raw_shaped json_loads (lit "end_turn") pre);
    [|now rewrite Hu].
  rewrite Hu, Hnone.
  change (last :: post) with ([last] ++ post).
  rewrite for_raw_app. cbn [for_raw].
  rewrite (@on_raw_fragment_finish json_loads (lit "end_turn") last t s
             Ht Htn Hs Hsn).
  now rewrite map_app.
Qed.

Lemma fragment_with_finish_reason_is_written_witness :
  let chunks :=
    [ln "data: {'choices': [{'delta': {'role': 'assistant'}}]}";
     ln "data: {'choices': [{'delta': {'content': 'a'}}]}";
     dq "data: {'choices': [{'delta': {'content': 'b'}, "
     ++ ln "'finish_reason': 'length'}]}" ++ ln "data: [DONE]"] in
  handle_stream_response Json.loads 200 [] PNone 1 (map Recv chunks)
  = (opening 1 PNone
     ++ [content_delta (PStr (lit "a")); content_delta (PStr (lit "b"))]
     ++ [content_stop;
         Frame (lit "message_delta")
           (Dumps (obj [("type", PStr (lit "message_delta"));
                        ("delta", obj [("stop_reason",
                                        PStr (lit "max_tokens"));
                                       ("stop_sequence", PNone)]);
                        ("usage", obj [("output_tokens", PInt 0)])]));
         message_stop], Returned).
Proof.
  intros chunks.
  apply (@fragment_with_finish_reason_is_written Json.loads [] PNone 1%Z
           chunks
           (chunk_lines
              (ln "data: {'choices': [{'delta': {'role': 'assistant'}}]}"
               ++ ln "data: {'choices': [{'delta': {'content': 'a'}}]}"))
           (chunk_lines (ln "data: [DONE]"))
           (decode_ignore
              (dq "data: {'choices': [{'delta': {'content': 'b'}, "
               ++ dq "'finish_reason': 'length'}]}"))
           (lit "b") (lit "length"));
    try reflexivity; discriminate.
Defined.

Section DeltaCount.

Variable json_loads : str -> option pyval.

Lemma on_raw_at_most_one final_stop raw :
  (List.length (fst (on_raw json_loads final_stop raw))
   <= if is_data raw then 1 else 0)%nat.
Proof.
  unfold on_raw, is_data.
  destruct (startswith raw (lit "data:")); simpl; [|lia].
  destruct (str_eqb _ _); simpl; [lia|].
  destruct (json_loads _) as [data|]; simpl; [|lia].
  destruct (first_choice data) as [ch|]; simpl; [|lia].
  unfold write_delta.
  destruct (py_get ch (lit "delta") (PDict [])) as [delta|]; simpl; [|lia].
  destruct (truthy delta); simpl; [|lia].
  destruct (py_get delta (lit "content") PNone) as [content|]; simpl; [|lia].
  destruct (truthy content); simpl; lia.
Qed.

Lemma for_raw_at_most_data_lines final_stop raws :
  (List.length (fst (for_raw json_loads final_stop raws))
   <= List.length (filter is_data raws))%nat.
Proof.
  induction raws as [|raw raws IH]; simpl; [lia|].
  pose proof (on_raw_at_most_one final_stop raw) as H1.
  destruct (on_raw json_loads final_stop raw) as [w c].
  destruct (for_raw json_loads final_stop raws) as [w' c'].
  simpl in H1, IH.
  destruct (is_data raw); destruct c; simpl; rewrite ?length_app; lia.
Qed.

End DeltaCount.

Lemma count_named_le name out :
  (count_named name out <= List.length out)%nat.
Proof. unfold count_named. apply filter_length_le. Qed.

(** X3: a line writes one delta at most, so the output never holds
    more [content_block_delta] events than the body has [data:]
    lines. *)
Theorem deltas_at_most_data_lines
  (json_loads : str -> option pyval)
  (status : Z) (text : str) (model : pyval) (now_ms : Z)
  (chunks : list bytes) :
  (count_named "content_block_delta"
     (fst (handle_stream_response json_loads status text model now_ms
             (map Recv chunks)))
   <= List.length (filter is_data (frame_lines chunks)))%nat.
Proof.
  unfold handle_stream_response.
  destruct (negb (status =? 200)%Z).
  { cbn [fst].
    change (count_named "content_block_delta" [error_event text])
      with 0%nat.
    lia. }
  rewrite <- (app_nil_r (map Recv chunks)), for_chunk_lines.
  pose proof (for_raw_at_most_data_lines json_loads (lit "end_turn")
                (frame_lines chunks)) as H.
  destruct (for_raw json_loads (lit "end_turn") (frame_lines chunks))
    as [w c].
  simpl in H.
  pose proof (count_named_le "content_block_delta" w) as Hw.
  destruct c; cbn [for_chunk fst]; rewrite ?app_nil_r;
    rewrite ?count_named_app;
    change (count_named "content_block_delta" (opening now_ms model))
      with 0%nat;
    try change (count_named "content_block_delta" (closing (lit "end_turn")))
      with 0%nat;
    try change (count_named "content_block_delta" (closing final_stop))
      with 0%nat;
    lia.
Qed.


(** ** Text outside ASCII *)
Module Utf8Range.
Import Utf8.

(** The bounds of a pending sequence lie among the continuation bytes. *)
Definition bounded (st : state) : Prop :=
  need st = O \/ (0x80 <= lo st /\ hi st <= 0xBF).

Ltac by_range :=
  repeat match goal with
         | |- context [N.ltb ?a ?b] => destruct (N.ltb_spec a b)
         | |- context [N.leb ?a ?b] => destruct (N.leb_spec a b)
         | |- context [N.eqb ?a ?b] => destruct (N.eqb_spec a b)
         end;
  cbn [andb]; try lia; try reflexivity.

Lemma start_bounded b : bounded (fst (start b)).
Proof.
  unfold start, bounded.
  repeat match goal with
         | |- context [if ?c then _ else _] => destruct c
         end; simpl; solve [now left | right; lia].
Qed.

Lemma step_bounded st b : bounded (fst (step st b)).
Proof.
  unfold step. destruct (need st) as [|n]; [apply start_bounded|].
  destruct (_ && _); [|apply start_bounded].
  destruct n; simpl; [now left | right; simpl; lia].
Qed.

(** A byte that is no continuation byte ends what was pending. *)
Lemma step_reset st c :
  bounded st -> c < 0x80 \/ 0xBF < c -> step st c = start c.
Proof.
  intros Hb Hc. unfold step.
  destruct (need st) as [|n] eqn:Hn; [reflexivity|].
  destruct Hb as [H0|[Hlo Hhi]]; [congruence|].
  destruct (N.leb_spec (lo st) c); destruct (N.leb_spec c (hi st));
    cbn [andb]; try reflexivity; lia.
Qed.

Lemma run_cut c b :
  c < 0x80 \/ 0xBF < c ->
  forall a st, bounded st ->
    run st (a ++ c :: b) = run st a ++ run idle (c :: b).
Proof.
  intros Hc a. induction a as [|x a IH]; intros st Hb.
  - cbn [app run].
    rewrite (step_reset Hb Hc).
    now rewrite (@step_reset idle c (or_introl eq_refl) Hc).
  - cbn [app run].
    pose proof (step_bounded st x) as Hb'.
    destruct (step st x) as [st' o]. simpl in Hb'.
    rewrite (IH st' Hb'). now rewrite app_assoc.
Qed.

Lemma start_ascii c : c < 0x80 -> start c = (idle, [c]).
Proof. intros H. unfold start. by_range. Qed.

Lemma start_cont c : 0x80 <= c -> c <= 0xBF -> start c = (idle, []).
Proof. intros H1 H2. unfold start. by_range. Qed.

Lemma start_lead2 c :
  0xC2 <= c -> c <= 0xDF -> start c = (mk 1 (N.land c 0x1F) 0x80 0xBF, []).
Proof. intros H1 H2. unfold start. by_range. Qed.

Lemma start_lead3 c :
  (0xE1 <= c /\ c <= 0xEC) \/ (0xEE <= c /\ c <= 0xEF) ->
  start c = (mk 2 (N.land c 0x0F) 0x80 0xBF, []).
Proof. intros H. unfold start. by_range. Qed.

Lemma step_cont n a c :
  0x80 <= c -> c <= 0xBF ->
  step (mk (S n) a 0x80 0xBF) c
  = match n with
    | O => (idle, [a * 64 + N.land c 0x3F])
    | S _ => (mk n (a * 64 + N.land c 0x3F) 0x80 0xBF, [])
    end.
Proof.
  intros H1 H2. unfold step. cbn [need lo hi acc].
  destruct (N.leb_spec 0x80 c); destruct (N.leb_spec c 0xBF);
    cbn [andb]; try lia; reflexivity.
Qed.

End Utf8Range.

(** X4: a chunk of ASCII bytes is decoded byte for byte. *)
Theorem ascii_chunk_decodes_to_itself (chunk : bytes) :
  forallb (fun b => Byte.to_N b <? 0x80) chunk = true ->
  decode_ignore chunk = map Byte.to_N chunk.
Proof.
  unfold decode_ignore.
  induction chunk as [|b chunk IH]; [reflexivity|].
  cbn [forallb map Utf8.run]. intros H.
  apply andb_prop in H. destruct H as [Hb Hc].
  apply N.ltb_lt in Hb.
  change (Utf8.step Utf8.idle (Byte.to_N b)) with (Utf8.start (Byte.to_N b)).
  rewrite (Utf8Range.start_ascii Hb). cbn [app]. now rewrite (IH Hc).
Qed.

Lemma ascii_chunk_decodes_to_itself_witness :
  forallb (fun b => Byte.to_N b <? 0x80) (ln "data: [DONE]") = true /\
  decode_ignore (ln "data: [DONE]") = map Byte.to_N (ln "data: [DONE]").
Proof.
  split; [reflexivity|].
  apply (@ascii_chunk_decodes_to_itself (ln "data: [DONE]")). reflexivity.
Defined.

Lemma decode_ignore_cut a c b :
  Byte.to_N c < 0x80 \/ 0xBF < Byte.to_N c ->
  decode_ignore (a ++ c :: b) = decode_ignore a ++ decode_ignore (c :: b).
Proof.
  intros Hc. unfold decode_ignore. rewrite map_app. cbn [map].
  apply Utf8Range.run_cut; [exact Hc | now left].
Qed.

Lemma decode_ignore_cont c b :
  is_cont c -> decode_ignore (c :: b) = decode_ignore b.
Proof.
  intros [H1 H2]. unfold decode_ignore. cbn [map Utf8.run].
  change (Utf8.step Utf8.idle (Byte.to_N c)) with (Utf8.start (Byte.to_N c)).
  now rewrite (Utf8Range.start_cont H1 H2).
Qed.

(** X5: a two-byte character is decoded when its bytes arrive in one
    chunk, whatever stands before and after it.  When the chunk
    boundary falls between its two bytes, the character is dropped:
    the two chunks decode to the text around it. *)
Theorem two_byte_character_split (a b : bytes) (lead cont : byte) :
  is_lead2 lead -> is_cont cont ->
  decode_ignore (a ++ lead :: cont :: b)
  = decode_ignore a
    ++ (N.land (Byte.to_N lead) 0x1F * 64 + N.land (Byte.to_N cont) 0x3F)
    :: decode_ignore b
  /\ decode_ignore (a ++ [lead]) ++ decode_ignore (cont :: b)
     = decode_ignore a ++ decode_ignore b.
Proof.
  intros [L1 L2] [C1 C2].
  assert (Hcut : Byte.to_N lead < 0x80 \/ 0xBF < Byte.to_N lead)
    by (right; lia).
  split.
  - rewrite (@decode_ignore_cut a lead (cont :: b) Hcut). f_equal.
    unfold decode_ignore. cbn [map Utf8.run].
    change (Utf8.step Utf8.idle (Byte.to_N lead))
      with (Utf8.start (Byte.to_N lead)).
    rewrite (Utf8Range.start_lead2 L1 L2).
    now rewrite (Utf8Range.step_cont 0 _ C1 C2).
  - rewrite (@decode_ignore_cut a lead [] Hcut).
    rewrite (@decode_ignore_cont _ b (conj C1 C2)).
    rewrite <- app_assoc. f_equal.
    unfold decode_ignore. cbn [map Utf8.run].
    change (Utf8.step Utf8.idle (Byte.to_N lead))
      with (Utf8.start (Byte.to_N lead)).
    now rewrite (Utf8Range.start_lead2 L1 L2).
Qed.

Lemma two_byte_character_split_witness :
  let a := dq "data: caf" in
  let b := ln "!" in
  is_lead2 xc3 /\ is_cont xa9 /\
  decode_ignore (a ++ xc3 :: xa9 :: b)
  = decode_ignore a ++ 0xE9 :: decode_ignore b
  /\ decode_ignore (a ++ [xc3]) ++ decode_ignore (xa9 :: b)
     = decode_ignore a ++ decode_ignore b.
Proof.
  intros a b.
  assert (L : is_lead2 xc3) by (unfold is_lead2; simpl; lia).
  assert (C : is_cont xa9) by (unfold is_cont; simpl; lia).
  split; [exact L|]. split; [exact C|].
  exact (@two_byte_character_split a b xc3 xa9 L C).
Defined.

(** X6: the same for the three-byte characters, among them the Chinese
    ones: decoded when whole, dropped when the chunk boundary falls
    after the first or after the second byte. *)
Theorem three_byte_character_split (a b : bytes) (lead c1 c2 : byte) :
  is_lead3 lead -> is_cont c1 -> is_cont c2 ->
  decode_ignore (a ++ lead :: c1 :: c2 :: b)
  = decode_ignore a
    ++ ((N.land (Byte.to_N lead) 0x0F * 64 + N.land (Byte.to_N c1) 0x3F) * 64
        + N.land (Byte.to_N c2) 0x3F)
    :: decode_ignore b
  /\ decode_ignore (a ++ [lead]) ++ decode_ignore (c1 :: c2 :: b)
     = decode_ignore a ++ decode_ignore b
  /\ decode_ignore (a ++ [lead; c1]) ++ decode_ignore (c2 :: b)
     = decode_ignore a ++ decode_ignore b.
Proof.
  intros L [C1 C1'] [C2 C2'].
  assert (Hcut : Byte.to_N lead < 0x80 \/ 0xBF < Byte.to_N lead)
    by (right; unfold is_lead3 in L; lia).
  assert (Hstart := Utf8Range.start_lead3 L).
  split; [|split].
  - rewrite (@decode_ignore_cut a lead (c1 :: c2 :: b) Hcut). f_equal.
    unfold decode_ignore. cbn [map Utf8.run].
    change (Utf8.step Utf8.idle (Byte.to_N lead))
      with (Utf8.start (Byte.to_N lead)).
    rewrite Hstart.
    rewrite (Utf8Range.step_cont 1 _ C1 C1').
    now rewrite (Utf8Range.step_cont 0 _ C2 C2').
  - rewrite (@decode_ignore_cut a lead [] Hcut).
    rewrite (@decode_ignore_cont _ (c2 :: b) (conj C1 C1')).
    rewrite (@decode_ignore_cont _ b (conj C2 C2')).
    rewrite <- app_assoc. f_equal.
    unfold decode_ignore. cbn [map Utf8.run].
    change (Utf8.step Utf8.idle (Byte.to_N lead))
      with (Utf8.start (Byte.to_N lead)).
    now rewrite Hstart.
  - rewrite (@decode_ignore_cut a lead [c1] Hcut).
    rewrite (@decode_ignore_cont _ b (conj C2 C2')).
    rewrite <- app_assoc. f_equal.
    unfold decode_ignore. cbn [map Utf8.run].
    change (Utf8.step Utf8.idle (Byte.to_N lead))
      with (Utf8.start (Byte.to_N lead)).
    rewrite Hstart.
    now rewrite (Utf8Range.step_cont 1 _ C1 C1').
Qed.

Lemma three_byte_character_split_witness :
  let a := dq "data: {'choices': [{'delta': {'content': '" in
  let b := ln "'}}]}" in
  is_lead3 xe4 /\ is_cont xbd /\ is_cont xa0 /\
  decode_ignore (a ++ xe4 :: xbd :: xa0 :: b)
  = decode_ignore a ++ 0x4F60 :: decode_ignore b
  /\ decode_ignore (a ++ [xe4]) ++ decode_ignore (xbd :: xa0 :: b)
     = decode_ignore a ++ decode_ignore b
  /\ decode_ignore (a ++ [xe4; xbd]) ++ decode_ignore (xa0 :: b)
     = decode_ignore a ++ decode_ignore b.
Proof.
  intros a b.
  assert (L : is_lead3 xe4) by (unfold is_lead3; simpl; lia).
  assert (C1 : is_cont xbd) by (unfold is_cont; simpl; lia).
  assert (C2 : is_cont xa0) by (unfold is_cont; simpl; lia).
  split; [exact L|]. split; [exact C1|]. split; [exact C2|].
  exact (@three_byte_character_split a b xe4 xbd xa0 L C1 C2).
Defined.

(** * The conversion of the messages *)

Lemma convert_message_cases msg out :
  convert_message msg = Ok out ->
  out = []
  \/ (exists content,
        (forall parts, content <> PList parts)
        /\ out = [PDict [(lit "role", PStr (lit "user"));
                         (lit "content", content)]])
  \/ (exists content,
        out = [PDict [(lit "role", PStr (lit "assistant"));
                      (lit "content", content)]]).
Proof.
  unfold convert_message.
  destruct (py_get msg (lit "role") PNone) as [role|]; [|discriminate].
  destruct (py_eq_str role (lit "user")).
  - destruct (py_get msg (lit "content") (PStr [])) as [content|];
      [|discriminate].
    destruct content as [| | | | |parts|];
      try (intros [= <-]; right; left; eexists; split; [|reflexivity];
           discriminate).
    destruct (text_parts parts) as [ts|]; [|discriminate].
    destruct (join_lf ts) as [joined|]; [|discriminate].
    intros [= <-]. right; left. eexists. split; [|reflexivity].
    discriminate.
  - destruct (py_eq_str role (lit "assistant")).
    + destruct (py_get msg (lit "content") (PStr [])) as [content|];
        [|discriminate].
      intros [= <-]. right; right. now eexists.
    + intros [= <-]. now left.
Qed.

Lemma convert_messages_app a b :
  convert_messages (a ++ b)
  = match convert_messages a with
    | Err e => Err e
    | Ok x =>
        match convert_messages b with
        | Ok y => Ok (x ++ y)
        | Err e => Err e
        end
    end.
Proof.
  induction a as [|msg a IH]; cbn [app convert_messages].
  - now destruct (convert_messages b).
  - destruct (convert_message msg) as [out|]; [|reflexivity].
    rewrite IH.
    destruct (convert_messages a) as [x|]; [|reflexivity].
    destruct (convert_messages b) as [y|]; [|reflexivity].
    now rewrite app_assoc.
Qed.

Lemma convert_messages_roles msgs :
  forall out,
    convert_messages msgs = Ok out ->
    Forall openai_message out /\ (List.length out <= List.length msgs)%nat.
Proof.
  induction msgs as [|msg msgs IH]; intros out.
  - intros [= <-]. split; [constructor | apply le_n].
  - cbn [convert_messages].
    destruct (convert_message msg) as [o|] eqn:E; [|discriminate].
    destruct (convert_messages msgs) as [o'|]; [|discriminate].
    intros [= <-]. destruct (IH o' eq_refl) as [IH1 IH2].
    apply convert_message_cases in E.
    destruct E as [->|[[c [_ ->]]|[c ->]]]; cbn [app List.length].
    + split; [exact IH1 | lia].
    + split; [|lia]. constructor; [|exact IH1].
      exists (lit "user"), c. split; [now left | reflexivity].
    + split; [|lia]. constructor; [|exact IH1].
      exists (lit "assistant"), c. split; [now right | reflexivity].
Qed.

(** X7: what is sent on has the roles of the user and of the assistant
    only, each message with exactly the fields [role] and [content];
    messages of any other role are left out, so the result is never
    longer than the list given. *)
Theorem converted_messages_are_user_or_assistant
  (msgs out : list pyval) :
  claude_to_openai_messages (PList msgs) = Ok out ->
  Forall openai_message out /\ (List.length out <= List.length msgs)%nat.
Proof.
  unfold claude_to_openai_messages. cbn [py_iter].
  apply convert_messages_roles.
Qed.

Lemma converted_messages_are_user_or_assistant_witness :
  let msgs :=
    [obj [("role", PStr (lit "system")); ("content", PStr (lit "be brief"))];
     obj [("role", PStr (lit "user")); ("content", PStr (lit "hello"));
          ("name", PStr (lit "n"))]] in
  let out := [obj [("role", PStr (lit "user"));
                   ("content", PStr (lit "hello"))]] in
  claude_to_openai_messages (PList msgs) = Ok out /\
  Forall openai_message out /\ (List.length out <= List.length msgs)%nat.
Proof.
  intros msgs out. split; [reflexivity|].
  apply (@converted_messages_are_user_or_assistant msgs out). reflexivity.
Defined.

Lemma convert_message_again msg out :
  convert_message msg = Ok out ->
  Forall (fun m => convert_message m = Ok [m]) out.
Proof.
  intros H. apply convert_message_cases in H.
  destruct H as [->|[[c [Hc ->]]|[c ->]]]; repeat constructor.
  - unfold convert_message. cbn.
    destruct c as [| | | | |parts|]; try reflexivity. now elim (Hc parts).
Qed.

Lemma convert_messages_again msgs :
  forall out,
    convert_messages msgs = Ok out ->
    Forall (fun m => convert_message m = Ok [m]) out.
Proof.
  induction msgs as [|msg msgs IH]; intros out; cbn [convert_messages].
  - intros [= <-]. constructor.
  - destruct (convert_message msg) as [o|] eqn:E; [|discriminate].
    destruct (convert_messages msgs) as [o'|]; [|discriminate].
    intros [= <-]. apply Forall_app. split.
    + now apply convert_message_again with (msg := msg).
    + now apply IH.
Qed.

Lemma convert_messages_fixed out :
  Forall (fun m => convert_message m = Ok [m]) out ->
  convert_messages out = Ok out.
Proof.
  induction 1 as [|m out Hm _ IH]; [reflexivity|].
  cbn [convert_messages]. now rewrite Hm, IH.
Qed.

(** X8: converting what the conversion returned changes nothing: the
    messages it produces are in the form it leaves alone. *)
Theorem conversion_is_idempotent (claude_messages : pyval)
  (out : list pyval) :
  claude_to_openai_messages claude_messages = Ok out ->
  claude_to_openai_messages (PList out) = Ok out.
Proof.
  unfold claude_to_openai_messages.
  destruct (py_iter claude_messages) as [msgs|]; [|discriminate].
  intros H. cbn [py_iter].
  apply convert_messages_fixed. now apply convert_messages_again with msgs.
Qed.

Lemma conversion_is_idempotent_witness :
  let msgs :=
    PList [obj [("role", PStr (lit "user"));
                ("content",
                 PList [obj [("type", PStr (lit "text"));
                             ("text", PStr (lit "a"))];
                        obj [("type", PStr (lit "text"));
                             ("text", PStr (lit "b"))]])];
           obj [("role", PStr (lit "tool")); ("content", PStr (lit "x"))]] in
  let out := [obj [("role", PStr (lit "user"));
                   ("content", PStr (lit "a" ++ LF :: lit "b"))]] in
  claude_to_openai_messages msgs = Ok out /\
  claude_to_openai_messages (PList out) = Ok out.
Proof.
  intros msgs out. split; [reflexivity|].
  apply (@conversion_is_idempotent msgs out). reflexivity.
Defined.

(** X9: the messages are converted one by one and in order: the
    conversion of a conversation that continues another is the
    conversion of the first followed by that of the second, and it
    raises what the first of the two raises. *)
Theorem conversion_of_concatenation (a b : list pyval) :
  claude_to_openai_messages (PList (a ++ b))
  = match claude_to_openai_messages (PList a) with
    | Err e => Err e
    | Ok x =>
        match claude_to_openai_messages (PList b) with
        | Ok y => Ok (x ++ y)
        | Err e => Err e
        end
    end.
Proof.
  unfold claude_to_openai_messages. cbn [py_iter].
  apply convert_messages_app.
Qed.





(** * The request handlers *)

Lemma lift_done {A : Type} (r : res A) (a : A) :
  lift r = Done a -> r = Ok a.
Proof. destruct r; simpl; congruence. Qed.

Lemma bind_done {A B : Type} (c : result A) (k : A -> result B) (b : B) :
  bind c k = Done b -> exists a, c = Done a /\ k a = Done b.
Proof. destruct c as [a|e]; simpl; [now exists a | discriminate]. Qed.

Ltac bind_inv H :=
  let a := fresh "v" in
  let E := fresh "E" in
  apply bind_done in H; destruct H as [a [E H]];
  try apply lift_done in E.

(** What a call of the backend that was built tells about the request
    and the configuration it was built from. *)
Lemma build_call_done format config provider claude_request c :
  build_call format config provider claude_request = Done c ->
  exists provider_name claude_model provider_config models mapped
         openai_model claude_messages openai_messages server
         config_max_tokens max_tokens stream temperature api_key base_url,
    py_get claude_request (lit "model") PNone = Ok claude_model
    /\ get_provider_config config provider_name = Done provider_config
    /\ (forall p, provider = Some p -> p <> [] -> provider_name = PStr p)
    /\ py_item provider_config (lit "models") = Ok models
    /\ py_get_key models claude_model PNone = Ok mapped
    /\ (if truthy mapped then openai_model = mapped
        else py_get models (lit "default") PNone = Ok openai_model)
    /\ py_get claude_request (lit "messages") (PList []) = Ok claude_messages
    /\ claude_to_openai_messages claude_messages = Ok openai_messages
    /\ py_get config (lit "server") (PDict []) = Ok server
    /\ py_get server (lit "max_tokens") PNone = Ok config_max_tokens
    /\ (match config_max_tokens with
        | PNone =>
            py_get claude_request (lit "max_tokens") PNone = Ok max_tokens
        | _ => max_tokens = config_max_tokens
        end)
    /\ py_get claude_request (lit "stream") (PBool false) = Ok stream
    /\ py_get claude_request (lit "temperature") (PFloat default_temperature)
       = Ok temperature
    /\ py_item provider_config (lit "api_key") = Ok api_key
    /\ py_item provider_config (lit "base_url") = Ok base_url
    /\ c = Call (format base_url ++ lit "/chat/completions")
                (obj [("model", openai_model);
                      ("messages", PList openai_messages);
                      ("stream", stream);
                      ("max_tokens", max_tokens);
                      ("temperature", temperature)])
                (obj [("Authorization",
                       PStr (lit "Bearer " ++ format api_key));
                      ("Content-Type", PStr (lit "application/json"))]).
Proof.
  unfold build_call. cbv zeta. intros H.
  bind_inv H. rename v into provider_name, E into Hname.
  bind_inv H. rename v into claude_model, E into Hmodel.
  bind_inv H. rename v into provider_config, E into Hpc.
  bind_inv H. rename v into models, E into Hmodels.
  bind_inv H. rename v into mapped, E into Hmapped.
  bind_inv H. rename v into openai_model, E into Hopenai.
  bind_inv H. rename v into claude_messages, E into Hmsgs.
  bind_inv H. rename v into openai_messages, E into Hconv.
  bind_inv H. rename v into server, E into Hserver.
  bind_inv H. rename v into config_max_tokens, E into Hcmt.
  bind_inv H. rename v into max_tokens, E into Hmax.
  bind_inv H. rename v into stream, E into Hstream.
  bind_inv H. rename v into temperature, E into Htemp.
  bind_inv H. rename v into api_key, E into Hkey.
  bind_inv H. rename v into base_url, E into Hurl.
  injection H as <-.
  exists provider_name, claude_model, provider_config, models, mapped,
    openai_model, claude_messages, openai_messages, server,
    config_max_tokens, max_tokens, stream, temperature, api_key, base_url.
  repeat match goal with |- _ /\ _ => split end; try assumption;
    try reflexivity.
  - intros p -> Hp. destruct p as [|x p]; [congruence|].
    simpl in Hname. congruence.
  - unfold py_or in Hopenai. destruct (truthy mapped).
    + congruence.
    + bind_inv Hopenai. apply lift_done in Hopenai. congruence.
  - destruct config_max_tokens; try congruence.
    now apply lift_done in Hmax.
Qed.


Section Handlers.

Variable json_loads : str -> option pyval.
Variable format : pyval -> str.
Variable str_exc : error -> str.
Variable config : pyval.
Variable post : call -> result upstream.

Lemma handle_messages_built provider claude_request now_ms c :
  build_call format config provider claude_request = Done c ->
  exists stream,
    py_item (request_data c) (lit "stream") = Ok stream
    /\ py_get claude_request (lit "stream") (PBool false) = Ok stream
    /\ handle_messages json_loads format str_exc config post provider
         (Done claude_request) now_ms
       = if truthy stream then
           match stream_exchange json_loads post c now_ms with
           | (written, Done _) => Served written StreamReply
           | (written, Fail e) => Served written (internal_error str_exc e)
           end
         else
           match handle_normal_response format post c with
           | Done r => Served [] r
           | Fail e => Served [] (internal_error str_exc e)
           end.
Proof.
  intros H. unfold handle_messages. cbn [bind]. rewrite H.
  apply build_call_done in H.
  destruct H as (pn & cm & pc & ms & mp & om & cmsgs & omsgs & sv & cmt
                 & mt & st & tp & ak & bu & H).
  destruct H as (_ & _ & _ & _ & _ & _ & _ & _ & _ & _ & _ & Hst & _ & _
                 & _ & ->).
  exists st. split; [reflexivity|]. split; [exact Hst|]. reflexivity.
Qed.


End Handlers.

(** X11: for a provider the configuration does not know (or knows
    with an empty entry) the handler returns the JSON answer with
    status 500 and the [ValueError] of [get_provider_config] as its
    message; what the backend would have said plays no part. *)
Theorem unknown_provider_is_internal_error
  (json_loads : str -> option pyval) (format : pyval -> str)
  (str_exc : error -> str) (post : call -> result upstream)
  (cfg providers request : list (str * pyval)) (p : str) (now_ms : Z) :
  p <> [] ->
  dict_find cfg (lit "providers") = Some (PDict providers) ->
  truthy (dict_get providers p PNone) = false ->
  handle_messages json_loads format str_exc (PDict cfg) post (Some p)
    (Done (PDict request)) now_ms
  = Served [] (JsonReply 500
      (obj [("error",
             obj [("type", PStr (lit "internal_error"));
                  ("message", PStr (str_exc (ValueError (PStr p))))])])).
Proof.
  intros Hp Hps Hfalsy.
  unfold handle_messages, build_call, get_provider_config.
  destruct p as [|x p]; [congruence|].
  cbn [bind truthy lift py_get py_item]. rewrite Hps.
  cbn [bind truthy lift py_get_key]. now rewrite Hfalsy.
Qed.

Lemma unknown_provider_is_internal_error_witness :
  handle_messages Json.loads format_simple str_exc_none config_example
    backend_ok (Some (lit "nowhere")) (Done (request_example "m" true)) 1
  = Served [] (JsonReply 500
      (obj [("error",
             obj [("type", PStr (lit "internal_error"));
                  ("message",
                   PStr (str_exc_none
                           (ValueError (PStr (lit "nowhere")))))])])).
Proof.
  apply (@unknown_provider_is_internal_error Json.loads format_simple
           str_exc_none backend_ok config_fields_example providers_example
           (request_fields_example "m" true) (lit "nowhere") 1%Z);
    [discriminate | reflexivity | reflexivity].
Defined.

(** X12: a [max_tokens] set in the [server] part of the configuration
    replaces the one of the client in what is sent to the backend, also
    when it is 0; only when the configuration has none (or [null]) is
    the client's value sent, [null] if the client gave none. *)
Theorem configured_max_tokens_overrides
  (format : pyval -> str) (config : pyval) (provider : option str)
  (claude_request : pyval) (c : call) (server limit : pyval) :
  build_call format config provider claude_request = Done c ->
  py_get config (lit "server") (PDict []) = Ok server ->
  py_get server (lit "max_tokens") PNone = Ok limit ->
  py_item (request_data c) (lit "max_tokens")
  = match limit with
    | PNone => py_get claude_request (lit "max_tokens") PNone
    | _ => Ok limit
    end.
Proof.
  intros H Hs Hl. apply build_call_done in H.
  destruct H as (pn & cm & pc & ms & mp & om & cmsgs & omsgs & sv & cmt
                 & mt & st & tp & ak & bu & H).
  destruct H as (_ & _ & _ & _ & _ & _ & _ & _ & Hsv & Hcmt & Hmt & _ & _
                 & _ & _ & ->).
  rewrite Hs in Hsv. injection Hsv as <-.
  rewrite Hl in Hcmt. injection Hcmt as <-.
  change (py_item (request_data _) (lit "max_tokens")) with (Ok mt).
  destruct limit; congruence.
Qed.

Lemma configured_max_tokens_overrides_witness :
  exists c,
    build_call format_simple config_example None (request_example "m" true)
    = Done c
    /\ py_item (request_data c) (lit "max_tokens") = Ok (PInt 4096).
Proof.
  eexists. split; [reflexivity|].
  apply (@configured_max_tokens_overrides format_simple config_example None
           (request_example "m" true) _ server_example (PInt 4096));
    reflexivity.
Defined.

(** X13: what is sent to the backend has the five fields [model],
    [messages], [stream], [max_tokens] and [temperature] and no other:
    a system prompt, tools or any further parameter of the client is
    not passed on; the messages have the roles of the user and of the
    assistant only. *)
Theorem upstream_request_fields
  (format : pyval -> str) (config : pyval) (provider : option str)
  (claude_request : pyval) (c : call) :
  build_call format config provider claude_request = Done c ->
  exists model messages stream max_tokens temperature,
    request_data c
    = PDict [(lit "model", model);
             (lit "messages", PList messages);
             (lit "stream", stream);
             (lit "max_tokens", max_tokens);
             (lit "temperature", temperature)]
    /\ Forall openai_message messages.
Proof.
  intros H. apply build_call_done in H.
  destruct H as (pn & cm & pc & ms & mp & om & cmsgs & omsgs & sv & cmt
                 & mt & st & tp & ak & bu & H).
  destruct H as (_ & _ & _ & _ & _ & _ & _ & Hconv & _ & _ & _ & _ & _
                 & _ & _ & ->).
  exists om, omsgs, st, mt, tp. split; [reflexivity|].
  unfold claude_to_openai_messages in Hconv.
  destruct (py_iter cmsgs) as [l|]; [|discriminate].
  now apply convert_messages_roles in Hconv.
Qed.

Lemma upstream_request_fields_witness :
  exists c,
    build_call format_simple config_example None (request_example "m" true)
    = Done c
    /\ exists model messages stream max_tokens temperature,
         request_data c
         = PDict [(lit "model", model);
                  (lit "messages", PList messages);
                  (lit "stream", stream);
                  (lit "max_tokens", max_tokens);
                  (lit "temperature", temperature)]
         /\ Forall openai_message messages.
Proof.
  eexists. split; [reflexivity|].
  apply (@upstream_request_fields format_simple config_example None
           (request_example "m" true)).
  reflexivity.
Defined.

(** The model sent to the backend, in terms of the configuration: the
    table of the provider the request is routed to decides it. *)
Lemma build_call_routed format cfg provider claude_request c :
  build_call format (PDict cfg) provider claude_request = Done c ->
  exists claude_model providers provider_config models mapped openai_model,
    py_get claude_request (lit "model") PNone = Ok claude_model
    /\ py_item (PDict cfg) (lit "providers") = Ok providers
    /\ py_get_key providers (routed_provider cfg provider) PNone
       = Ok provider_config
    /\ py_item provider_config (lit "models") = Ok models
    /\ py_get_key models claude_model PNone = Ok mapped
    /\ (if truthy mapped then openai_model = mapped
        else py_get models (lit "default") PNone = Ok openai_model)
    /\ py_item (request_data c) (lit "model") = Ok openai_model.
Proof.
  unfold build_call. cbv zeta. intros H.
  bind_inv H. rename v into provider_name, E into Hname.
  bind_inv H. rename v into claude_model, E into Hmodel.
  bind_inv H. rename v into provider_config, E into Hpc.
  bind_inv H. rename v into models, E into Hmodels.
  bind_inv H. rename v into mapped, E into Hmapped.
  bind_inv H. rename v into openai_model, E into Hopenai.
  unfold get_provider_config in Hpc.
  bind_inv Hpc. rename v into name, E into En.
  bind_inv Hpc. rename v into providers, E into Eps.
  bind_inv Hpc. rename v into found, E into Efound.
  destruct (truthy found); [|discriminate]. injection Hpc as ->.
  do 9 bind_inv H.
  injection H as <-.
  assert (Hr : name = routed_provider cfg provider).
  { unfold routed_provider.
    destruct provider as [[|x p]|].
    - cbn [truthy] in Hname. apply lift_done in Hname.
      cbn [py_get] in Hname. injection Hname as <-.
      destruct (truthy (dict_get cfg (lit "default_provider") PNone)).
      + congruence.
      + apply lift_done in En. cbn [py_get] in En. congruence.
    - cbn [truthy] in Hname. injection Hname as <-.
      cbn [truthy] in En. congruence.
    - cbn [truthy] in Hname. apply lift_done in Hname.
      cbn [py_get] in Hname. injection Hname as <-.
      destruct (truthy (dict_get cfg (lit "default_provider") PNone)).
      + congruence.
      + apply lift_done in En. cbn [py_get] in En. congruence. }
  subst name.
  exists claude_model, providers, provider_config, models, mapped,
    openai_model.
  repeat match goal with |- _ /\ _ => split end; try assumption;
    try reflexivity.
  unfold py_or in Hopenai. destruct (truthy mapped).
  - congruence.
  - bind_inv Hopenai. apply lift_done in Hopenai. congruence.
Qed.

(** X14: a model name of the client that the table of the provider
    does not map (or maps to an empty value) is replaced by the entry
    [default] of the table; [null] is sent when there is no such
    entry.  The provider is the one the request is routed to: the one
    named in the URL, and on the route without a name the default
    provider of the configuration. *)
Theorem unknown_model_uses_default
  (format : pyval -> str) (cfg : list (str * pyval))
  (provider : option str) (claude_request : pyval) (c : call)
  (providers provider_config : pyval) (models : list (str * pyval))
  (m : str) :
  build_call format (PDict cfg) provider claude_request = Done c ->
  py_item (PDict cfg) (lit "providers") = Ok providers ->
  py_get_key providers (routed_provider cfg provider) PNone
  = Ok provider_config ->
  py_item provider_config (lit "models") = Ok (PDict models) ->
  py_get claude_request (lit "model") PNone = Ok (PStr m) ->
  truthy (dict_get models m PNone) = false ->
  py_item (request_data c) (lit "model")
  = Ok (dict_get models (lit "default") PNone).
Proof.
  intros H Hps Hpc Hms Hm Hunknown. apply build_call_routed in H.
  destruct H as (cm & ps & pc & ms & mp & om & Hcm & Hps' & Hpc' & Hmodels
                 & Hmapped & Hom & ->).
  rewrite Hps in Hps'. injection Hps' as <-.
  rewrite Hpc in Hpc'. injection Hpc' as <-.
  rewrite Hms in Hmodels. injection Hmodels as <-.
  rewrite Hm in Hcm. injection Hcm as <-.
  cbn [py_get_key] in Hmapped. injection Hmapped as <-.
  rewrite Hunknown in Hom. cbn [py_get] in Hom. injection Hom as <-.
  reflexivity.
Qed.

Lemma unknown_model_uses_default_witness :
  (exists c,
     build_call format_simple config_example None
       (request_example "claude-3-opus" false) = Done c
     /\ routed_provider config_fields_example None = PStr (lit "siliconflow")
     /\ py_item (request_data c) (lit "model")
        = Ok (PStr (lit "Qwen/Qwen2.5-7B-Instruct")))
  /\ (exists c,
        build_call format_simple config_example (Some (lit "deepseek"))
          (request_example "claude-3-opus" false) = Done c
        /\ py_item (request_data c) (lit "model")
           = Ok (PStr (lit "deepseek-chat"))).
Proof.
  split.
  - eexists. split; [reflexivity|]. split; [reflexivity|].
    apply (@unknown_model_uses_default format_simple config_fields_example
             None (request_example "claude-3-opus" false) _
             (PDict providers_example)
             (dict_get providers_example (lit "siliconflow") PNone)
             (fields [("claude-3-5-sonnet-20241022",
                       PStr (lit "Qwen/Qwen2.5-72B-Instruct"));
                      ("default", PStr (lit "Qwen/Qwen2.5-7B-Instruct"))])
             (lit "claude-3-opus"));
      reflexivity.
  - eexists. split; [reflexivity|].
    apply (@unknown_model_uses_default format_simple config_fields_example
             (Some (lit "deepseek")) (request_example "claude-3-opus" false) _
             (PDict providers_example)
             (dict_get providers_example (lit "deepseek") PNone)
             (fields [("default", PStr (lit "deepseek-chat"))])
             (lit "claude-3-opus"));
      reflexivity.
Defined.

Section Exchanges.

Variable json_loads : str -> option pyval.
Variable format : pyval -> str.
Variable str_exc : error -> str.
Variable config : pyval.
Variable post : call -> result upstream.


End Exchanges.





(** X17: when the backend cannot be reached, the handler returns the
    JSON answer with status 500, also for a streamed request: no event
    is written on the prepared stream, not even an [error] event. *)
Theorem unreachable_backend_is_internal_error
  (json_loads : str -> option pyval) (format : pyval -> str)
  (str_exc : error -> str) (config : pyval)
  (post : call -> result upstream)
  (provider : option str) (claude_request : pyval) (now_ms : Z)
  (c : call) (e : error) :
  build_call format config provider claude_request = Done c ->
  post c = Fail e ->
  handle_messages json_loads format str_exc config post provider
    (Done claude_request) now_ms
  = Served [] (JsonReply 500
      (obj [("error", obj [("type", PStr (lit "internal_error"));
                           ("message", PStr (str_exc e))])])).
Proof.
  intros H Hpost.
  destruct (@handle_messages_built json_loads format str_exc config post
              provider claude_request now_ms c H)
    as (st & _ & _ & ->).
  unfold stream_exchange, handle_normal_response. rewrite Hpost.
  now destruct (truthy st).
Qed.

Lemma unreachable_backend_is_internal_error_witness :
  handle_messages Json.loads format_simple str_exc_none config_example
    backend_down None (Done (request_example "m" true)) 7
  = Served [] (JsonReply 500
      (obj [("error", obj [("type", PStr (lit "internal_error"));
                           ("message",
                            PStr (str_exc_none ClientError))])])).
Proof.
  refine (@unreachable_backend_is_internal_error Json.loads format_simple
            str_exc_none config_example backend_down None
            (request_example "m" true) 7%Z _ ClientError _ _);
    reflexivity.
Defined.

(** X18: a status of the backend other than 200 becomes the status of
    the answer to a plain request, with the text of the backend in an
    [api_error]; for a streamed request the stream response is returned
    with the single [error] event instead. *)
Theorem upstream_error_status
  (json_loads : str -> option pyval) (format : pyval -> str)
  (str_exc : error -> str) (config : pyval)
  (post : call -> result upstream)
  (provider : option str) (claude_request : pyval) (now_ms : Z)
  (c : call) (resp : upstream) (stream : pyval) :
  build_call format config provider claude_request = Done c ->
  py_get claude_request (lit "stream") (PBool false) = Ok stream ->
  post c = Done resp ->
  up_status resp <> 200%Z ->
  handle_messages json_loads format str_exc config post provider
    (Done claude_request) now_ms
  = if truthy stream
    then Served [error_event (up_text resp)] StreamReply
    else Served []
           (JsonReply (up_status resp)
              (obj [("error",
                     obj [("type", PStr (lit "api_error"));
                          ("message",
                           PStr (ulit "上游API错误: "
                                 ++ up_text resp))])])).
Proof.
  intros H Hst Hpost Hne.
  destruct (@handle_messages_built json_loads format str_exc config post
              provider claude_request now_ms c H)
    as (st & _ & Hst' & ->).
  rewrite Hst in Hst'. injection Hst' as <-.
  unfold stream_exchange, handle_normal_response. rewrite Hpost.
  cbn [bind].
  destruct (Z.eqb_spec (up_status resp) 200) as [E|_]; [contradiction|].
  cbn [negb]. now destruct (truthy stream).
Qed.

Lemma upstream_error_status_witness :
  handle_messages Json.loads format_simple str_exc_none config_example
    backend_busy None (Done (request_example "m" false)) 7
  = Served [] (JsonReply 429
      (obj [("error",
             obj [("type", PStr (lit "api_error"));
                  ("message",
                   PStr (ulit "上游API错误: "
                         ++ lit "slow down"))])]))
  /\ handle_messages Json.loads format_simple str_exc_none config_example
       backend_busy None (Done (request_example "m" true)) 7
     = Served [error_event (lit "slow down")] StreamReply.
Proof.
  split.
  - refine (@upstream_error_status Json.loads format_simple str_exc_none
              config_example backend_busy None (request_example "m" false)
              7%Z _ (Upstream 429 (lit "slow down") (Fail ClientError) [])
              (PBool false) _ _ _ _);
      try reflexivity; discriminate.
  - refine (@upstream_error_status Json.loads format_simple str_exc_none
              config_example backend_busy None (request_example "m" true)
              7%Z _ (Upstream 429 (lit "slow down") (Fail ClientError) [])
              (PBool true) _ _ _ _);
      try reflexivity; discriminate.
Defined.

(** * The plain answer and the helper for chunks *)

(** X19: the plain path has its own rule for the stop reason,
    [end_turn] for [stop] and [max_tokens] for everything else.  It
    gives what the table of the streaming path gives exactly for the
    finish reasons [stop] and [length]; for [tool_calls],
    [function_call] and every other reason the two paths differ. *)
Theorem stop_reason_rules_agree_on_stop_and_length (s : str) :
  nonstream_stop_reason (PStr s) = stop_reason_of s
  <-> s = lit "stop" \/ s = lit "length".
Proof.
  unfold nonstream_stop_reason, stop_reason_of. cbn [py_eq_str].
  destruct (str_eqb s (lit "length")) eqn:E1.
  { apply str_eqb_eq in E1. subst s. split; [now right | reflexivity]. }
  destruct (str_eqb s (lit "tool_calls")) eqn:E2.
  { apply str_eqb_eq in E2. subst s.
    split; [intros H; vm_compute in H; discriminate H|].
    intros [H|H]; vm_compute in H; discriminate H. }
  destruct (str_eqb s (lit "function_call")) eqn:E3.
  { apply str_eqb_eq in E3. subst s.
    split; [intros H; vm_compute in H; discriminate H|].
    intros [H|H]; vm_compute in H; discriminate H. }
  destruct (str_eqb s (lit "stop")) eqn:E4.
  { apply str_eqb_eq in E4. subst s. split; [now left | reflexivity]. }
  split.
  - intros H. vm_compute in H. discriminate H.
  - intros [->| ->]; [rewrite str_eqb_refl in E4 | rewrite str_eqb_refl in E1];
      discriminate.
Qed.

Lemma dict_get_find d key default :
  dict_get d key default
  = match dict_find d key with
    | Some v => v
    | None => default
    end.
Proof.
  induction d as [|[k v] d IH]; [reflexivity|].
  simpl. now destruct (str_eqb k key).
Qed.

(** X20: the plain answer has one content block, of type [text], and
    its stop reason is [end_turn] or [max_tokens], never [tool_use].
    Sent back as the turn of the assistant in the next request, the
    block list reaches the backend as it is: content of the assistant
    is not joined into a string the way content of the user is. *)
Theorem plain_answer_block_is_sent_back_unjoined
  (format : pyval -> str) (openai_response claude_response : pyval) :
  openai_to_claude_response format openai_response = Ok claude_response ->
  exists text,
    py_item claude_response (lit "content")
    = Ok (PList [obj [("type", PStr (lit "text")); ("text", text)]])
    /\ (py_item claude_response (lit "stop_reason")
        = Ok (PStr (lit "end_turn"))
        \/ py_item claude_response (lit "stop_reason")
           = Ok (PStr (lit "max_tokens")))
    /\ claude_to_openai_messages
         (PList [obj [("role", PStr (lit "assistant"));
                      ("content",
                       PList [obj [("type", PStr (lit "text"));
                                   ("text", text)]])]])
       = Ok [obj [("role", PStr (lit "assistant"));
                  ("content",
                   PList [obj [("type", PStr (lit "text"));
                               ("text", text)]])]].
Proof.
  unfold openai_to_claude_response.
  destruct (first_choice openai_response) as [choice|]; [|discriminate].
  destruct (py_get choice (lit "message") (PDict [])) as [message|];
    [|discriminate].
  destruct (py_get openai_response (lit "id") _) as [id|]; [|discriminate].
  destruct (py_get message (lit "content") (PStr [])) as [text|];
    [|discriminate].
  destruct (py_get openai_response (lit "model") _) as [model|];
    [|discriminate].
  destruct (py_get choice (lit "finish_reason") PNone) as [fin|];
    [|discriminate].
  destruct (py_get openai_response (lit "usage") _) as [usage|];
    [|discriminate].
  destruct (py_get usage (lit "prompt_tokens") _) as [pt|]; [|discriminate].
  destruct (py_get usage (lit "completion_tokens") _) as [ct|];
    [|discriminate].
  intros [= <-]. exists text. split; [reflexivity|]. split.
  - unfold nonstream_stop_reason.
    destruct (py_eq_str fin (lit "stop")); [now left | now right].
  - reflexivity.
Qed.

Lemma plain_answer_block_is_sent_back_unjoined_witness :
  let answer :=
    obj [("id", PStr (lit "cmpl-1"));
         ("choices",
          PList [obj [("message", obj [("role", PStr (lit "assistant"));
                                       ("content", PStr (lit "Hi"))]);
                      ("finish_reason", PStr (lit "tool_calls"))]])] in
  exists claude_response text,
    openai_to_claude_response format_simple answer = Ok claude_response
    /\ py_item claude_response (lit "content")
       = Ok (PList [obj [("type", PStr (lit "text")); ("text", text)]])
    /\ py_item claude_response (lit "stop_reason")
       = Ok (PStr (lit "max_tokens")).
Proof.
  intros answer.
  destruct (@plain_answer_block_is_sent_back_unjoined format_simple answer
              _ eq_refl) as (text & H1 & _ & _).
  eexists. exists text. split; [reflexivity|]. split; [exact H1|].
  reflexivity.
Defined.

(** X21: where the streaming loop writes a delta for a payload, the
    helper [openai_to_claude_stream_chunk], which the loop does not
    call, returns for that payload the value the loop wrote. *)
Theorem stream_chunk_helper_agrees_with_loop
  (format : pyval -> str) (payload choice : pyval) (f : frame) :
  first_choice payload = Ok choice ->
  write_delta choice = Ok [f] ->
  exists r,
    openai_to_claude_stream_chunk format payload = Ok r
    /\ f = Frame (lit "content_block_delta") (Dumps r).
Proof.
  intros Hc. unfold openai_to_claude_stream_chunk, write_delta. rewrite Hc.
  destruct (py_get choice (lit "delta") (PDict [])) as [delta|];
    [|discriminate].
  destruct (truthy delta) eqn:Ht; [|discriminate].
  destruct delta as [| | | | | |d]; try discriminate.
  cbn [py_get py_in py_item].
  rewrite (dict_get_find d (lit "content") PNone).
  destruct (dict_find d (lit "content")) as [content|]; [|discriminate].
  destruct (truthy content); [|discriminate].
  intros [= <-]. eexists. split; reflexivity.
Qed.

Lemma stream_chunk_helper_agrees_with_loop_witness :
  let choice := obj [("delta", obj [("content", PStr (lit "Hi"))])] in
  let payload := obj [("choices", PList [choice])] in
  exists r,
    openai_to_claude_stream_chunk format_simple payload = Ok r
    /\ content_delta (PStr (lit "Hi"))
       = Frame (lit "content_block_delta") (Dumps r).
Proof.
  intros choice payload.
  apply (@stream_chunk_helper_agrees_with_loop format_simple payload choice
           (content_delta (PStr (lit "Hi")))); reflexivity.
Defined.

(** * The listing of the models *)
Section Listing.

Variable config : pyval.
Variable clock : nat -> Z.

Lemma id_owner_entries owned_by ids :
  forall n,
    map id_owner (model_entries clock owned_by ids n)
    = map (fun k => (PStr k, PStr owned_by)) ids.
Proof.
  induction ids as [|k ids IH]; intros n; [reflexivity|].
  cbn [model_entries map]. rewrite IH. reflexivity.
Qed.

Lemma list_models_named (p : str) providers provider_config models ids :
  p <> [] ->
  py_item config (lit "providers") = Ok (PDict providers) ->
  dict_get providers p PNone = provider_config ->
  py_item provider_config (lit "models") = Ok models ->
  py_keys models = Ok ids ->
  list_models config clock (Some p) = Ok (model_entries clock p ids 0).
Proof.
  intros Hp Hps Hpc Hms Hids. unfold list_models.
  destruct p as [|x p]; [congruence|].
  rewrite Hps. cbn [py_get]. rewrite Hpc.
  assert (Ht : truthy provider_config = true).
  { destruct provider_config as [| | | | | |d]; try discriminate.
    destruct d; [discriminate | reflexivity]. }
  now rewrite Ht, Hms, Hids.
Qed.

Lemma all_entries_listing providers :
  py_item config (lit "providers") = Ok (PDict providers) ->
  forall keys n all,
    (forall k, In k keys -> k <> []) ->
    all_entries clock (map (fun k => (k, dict_get providers k PNone)) keys) n
    = Ok all ->
    map id_owner all
    = flat_map (fun p => match list_models config clock (Some p) with
                         | Ok l => map id_owner l
                         | Err _ => []
                         end) keys.
Proof.
  intros Hps keys.
  induction keys as [|k keys IH]; intros n all Hne.
  - intros [= <-]. reflexivity.
  - cbn [map all_entries flat_map].
    destruct (py_item (dict_get providers k PNone) (lit "models"))
      as [models|] eqn:Hms; [|discriminate].
    destruct (py_keys models) as [ids|] eqn:Hids; [|discriminate].
    destruct (all_entries clock _ (n + List.length ids)) as [rest|] eqn:Hr;
      [|discriminate].
    intros [= <-].
    rewrite (@list_models_named k providers _ models ids
               (Hne k (or_introl eq_refl)) Hps eq_refl Hms Hids).
    rewrite map_app, !id_owner_entries. f_equal.
    apply (IH _ _ (fun k' H => Hne k' (or_intror H)) Hr).
Qed.

End Listing.



(** X23: the listing without a provider is the listings of the
    providers of the configuration one after the other, in the order
    of the configuration (up to the time stamps of the entries). *)
Theorem full_listing_is_concatenation
  (config : pyval) (clock : nat -> Z)
  (providers : list (str * pyval)) (all : list pyval) :
  py_item config (lit "providers") = Ok (PDict providers) ->
  (forall k, In k (dict_keys providers) -> k <> []) ->
  list_models config clock None = Ok all ->
  map id_owner all
  = flat_map (fun p => match list_models config clock (Some p) with
                       | Ok l => map id_owner l
                       | Err _ => []
                       end) (dict_keys providers).
Proof.
  intros Hps Hne. unfold list_models at 1. rewrite Hps. cbn [py_items].
  apply (@all_entries_listing config clock providers Hps _ 0%nat all Hne).
Qed.

Lemma full_listing_is_concatenation_witness :
  exists all,
    list_models config_example Z.of_nat None = Ok all
    /\ map id_owner all
       = [(PStr (lit "claude-3-5-sonnet-20241022"),
           PStr (lit "siliconflow"));
          (PStr (lit "default"), PStr (lit "siliconflow"));
          (PStr (lit "default"), PStr (lit "deepseek"))].
Proof.
  eexists. split; [reflexivity|].
  rewrite (@full_listing_is_concatenation config_example Z.of_nat
             providers_example _ eq_refl); [reflexivity| |reflexivity].
  intros k [<-|[<-|[]]]; discriminate.
Defined.
